(** * Holdings dashboard: the aggregation pipeline of [streamliApp.py]

    The script loads a table of holdings, checks that the ten required
    columns are present, filters the rows of one client, computes five
    KPI scalars with pandas, back-solves a required growth rate, and runs
    three DuckDB queries over the client's rows (at-risk positions, sector
    summary, top holdings).

    Modelling choices.
    - A cell of a numeric column is a finite number, a client name is a
      string; blank cells are not modelled.  Equalities between computed
      amounts are stated with [==] on [Q].
    - A column of the frame has a dtype, see [column_dtype].  The pandas sum
      of an int64 column wraps around; the sum over a frame without rows is
      the Python integer 0, and dividing by it raises.
    - The rounding of binary64 is not modelled: on a float64 column the
      sums, the means and the SQL aggregates are the exact values.  The
      statements that compare differently computed amounts therefore assume
      integer cells small enough for binary64 to be exact.
    - The special results of numpy scalar arithmetic (NaN, the infinities)
      are kept, see [float64].
    - A query with [ORDER BY] is a relation between its input and its
      result: the single sort key fixes the order of rows with different
      keys only. *)

From Stdlib Require Import List String Bool ZArith QArith Qround Qabs Lia.
From Stdlib Require Import Permutation Sorted.
From Stdlib Require Import Reals Lra Qreals.
From Stdlib Require Lqa.
Import ListNotations.

Local Open Scope string_scope.
Local Open Scope Q_scope.

(** ** Data model *)

(** One row of the sheet, a cell for each required column. *)
Record HoldingRecord : Type := mkHolding {
  clientId : string;
  clientName : string;
  productName : string;
  investmentAmount : Q;
  marketValue : Q;
  gainLoss : Q;                    (* the sheet's own "Gain/Loss" column *)
  sector : string;
  riskLevel : string;
  annualizedExpectedGrowth : Q;
  actualAnnualGrowth : Q
}.

(** The frame returned by [load_data]: the header and the rows.  The cells of
    a row are read only after the header check has found every required
    column. *)
Record DataFrame : Type := mkFrame {
  columns : list string;
  rows : list HoldingRecord
}.

(** ** Header check (lines 27-33) *)

Definition required_columns : list string :=
  ["Client ID"; "Client Name"; "Product Name"; "Investment Amount"; "Market Value";
   "Gain/Loss"; "Sector"; "Risk Level"; "Annualized Expected Growth"; "Actual Annual Growth"].

(** [col in data.columns] *)
Definition col_in (col : string) (cols : list string) : bool :=
  existsb (String.eqb col) cols.

(** [[col for col in required_columns if col not in data.columns]] *)
Definition missing_columns (data : DataFrame) : list string :=
  filter (fun col => negb (col_in col (columns data))) required_columns.

(** ** Client selection (line 41) *)

(** [data[data["Client Name"] == selected_client]] *)
Definition client_data (data : DataFrame) (selected_client : string) : list HoldingRecord :=
  filter (fun r => String.eqb (clientName r) selected_client) (rows data).

(** ** Numbers *)

(** A numpy scalar: a finite number or one of the special values.  The
    finite part is exact. *)
Inductive float64 (A : Type) : Type :=
| Finite (x : A)
| PosInf
| NegInf
| NaN.
Arguments Finite {A} x.
Arguments PosInf {A}.
Arguments NegInf {A}.
Arguments NaN {A}.

Definition Qlt_bool (x y : Q) : bool :=
  match x ?= y with Lt => true | _ => false end.

Definition is_integer (y : Q) : bool := (Z.pos (Qden (Qred y)) =? 1)%Z.
Definition is_odd_integer (y : Q) : bool := is_integer y && Z.odd (Qnum (Qred y)).

(** The dtype pandas gives a numeric column of the loaded frame: [object]
    for a frame without rows, [int64] when every cell is an integer of the
    int64 range, [float64] otherwise.  A client's subset keeps the dtype of
    the frame. *)
Inductive dtype : Type :=
| dtype_object
| dtype_int64
| dtype_float64.

Definition is_int64_cell (x : Q) : bool :=
  is_integer x && (- 2 ^ 63 <=? Qnum (Qred x))%Z && (Qnum (Qred x) <? 2 ^ 63)%Z.

Definition column_dtype (col : list Q) : dtype :=
  match col with
  | [] => dtype_object
  | _ :: _ => if forallb is_int64_cell col then dtype_int64 else dtype_float64
  end.

(** The two's complement wrap-around of int64 arithmetic. *)
Definition wrap64 (z : Z) : Z := ((z + 2 ^ 63) mod 2 ^ 64 - 2 ^ 63)%Z.

(** Sum of a column accumulated from 0 in row order, without wrap-around:
    the SQL [SUM], and the value the pandas sum starts from.  The sum of an
    empty column is 0. *)
Definition sum (col : list Q) : Q := fold_left Qplus col 0.

(** [Series.sum()]: on an int64 column the additions wrap around (wrapping
    the total gives the same number); on the other dtypes the sum is taken
    as it is. *)
Definition series_sum (dt : dtype) (col : list Q) : Q :=
  match dt with
  | dtype_int64 => inject_Z (wrap64 (Qfloor (sum col)))
  | dtype_float64 | dtype_object => sum col
  end.

(** [a - b] on two numpy scalars: int64 when both are, with wrap-around. *)
Definition scalar_sub (dt_a dt_b : dtype) (a b : Q) : Q :=
  match dt_a, dt_b with
  | dtype_int64, dtype_int64 => inject_Z (wrap64 (Qfloor (a - b)))
  | _, _ => a - b
  end.

(** [Series.mean()]: sum over count, computed in binary64 whatever the
    dtype; NaN for an empty column (pandas does not raise).  The quotient is
    the exact one. *)
Definition mean (col : list Q) : float64 Q :=
  match col with
  | [] => NaN
  | _ :: _ => Finite (sum col / inject_Z (Z.of_nat (List.length col)))
  end.

(** ** KPI section (lines 63-67) *)

(** The first argument is the dtype of the column in the loaded frame. *)
Definition total_investment (dt : dtype) (client_data : list HoldingRecord) : Q :=
  series_sum dt (map investmentAmount client_data).

Definition total_market_value (dt : dtype) (client_data : list HoldingRecord) : Q :=
  series_sum dt (map marketValue client_data).

Definition net_gain_loss (dt_mv dt_inv : dtype) (client_data : list HoldingRecord) : Q :=
  scalar_sub dt_mv dt_inv
    (total_market_value dt_mv client_data) (total_investment dt_inv client_data).

Definition annual_growth_required (client_data : list HoldingRecord) : float64 Q :=
  mean (map annualizedExpectedGrowth client_data).

Definition actual_annual_growth (client_data : list HoldingRecord) : float64 Q :=
  mean (map actualAnnualGrowth client_data).

(** ** Target returns (lines 83-88) *)

(** [a / b] with a numpy scalar as divisor: division by zero gives an
    infinity or NaN (with a warning), it does not raise. *)
Definition true_divide (a b : Q) : float64 Q :=
  if Qeq_bool b 0 then
    match a ?= 0 with
    | Gt => PosInf
    | Lt => NegInf
    | Eq => NaN
    end
  else Finite (a / b).

(** [x ** y] for a numpy scalar [x] and a finite exponent [y].  A positive
    base gives the real power; a negative base with an exponent that is not
    an integer gives NaN. *)
Definition float_power (x : float64 Q) (y : Q) : float64 R :=
  match y ?= 0 with
  | Eq => Finite 1%R
  | Gt =>
      match x with
      | Finite b =>
          match b ?= 0 with
          | Gt => Finite (Rpower (Q2R b) (Q2R y))
          | Eq => Finite 0%R
          | Lt => if is_integer y then Finite (powerRZ (Q2R b) (Qnum (Qred y))) else NaN
          end
      | PosInf => PosInf
      | NegInf => if is_odd_integer y then NegInf else PosInf
      | NaN => NaN
      end
  | Lt =>
      match x with
      | Finite b =>
          match b ?= 0 with
          | Gt => Finite (Rpower (Q2R b) (Q2R y))
          | Eq => PosInf
          | Lt => if is_integer y then Finite (powerRZ (Q2R b) (Qnum (Qred y))) else NaN
          end
      | PosInf => Finite 0%R
      | NegInf => Finite 0%R
      | NaN => NaN
      end
  end.

(** [x - c] and [x * c] for an integer constant [c]. *)
Definition float_sub (x : float64 R) (c : Z) : float64 R :=
  match x with
  | Finite r => Finite (r - IZR c)%R
  | PosInf => PosInf
  | NegInf => NegInf
  | NaN => NaN
  end.

Definition float_mul (x : float64 R) (c : Z) : float64 R :=
  match x with
  | Finite r => Finite (r * IZR c)%R
  | PosInf => match c with Zpos _ => PosInf | Zneg _ => NegInf | Z0 => NaN end
  | NegInf => match c with Zpos _ => NegInf | Zneg _ => PosInf | Z0 => NaN end
  | NaN => NaN
  end.

(** [((target_increase / total_investment) ** (1 / time_period) - 1) * 100]
    when [total_investment] is the numpy scalar of a numeric column; the two
    inputs are the integers of the sidebar widgets.  The exponent is read only
    under the guard below, where [time_period] is positive.  The finite value
    is the real number the expression denotes. *)
Definition expected_annual_growth
    (target_increase : Z) (total_investment : Q) (time_period : Z) : float64 R :=
  float_mul
    (float_sub
       (float_power (true_divide (inject_Z target_increase) total_investment)
                    (1 / inject_Z time_period))
       1)
    100.

(** [if target_increase > 0 and time_period > 0: ...] with a numpy scalar as
    total investment: the sidebar line is written under the guard, nothing is
    written otherwise. *)
Definition sidebar_growth
    (target_increase : Z) (total_investment : Q) (time_period : Z) : option (float64 R) :=
  if ((0 <? target_increase)%Z && (0 <? time_period)%Z)%bool
  then Some (expected_annual_growth target_increase total_investment time_period)
  else None.

(** The value [total_investment] holds at line 86: the numpy scalar of a
    numeric column, or the Python integer 0 that [.sum()] gives on the empty
    object column of a frame without rows. *)
Inductive sum_value : Type :=
| NumpyScalar (x : Q)
| PythonZero.

Definition scalar_value (dt : dtype) (x : Q) : sum_value :=
  match dt with
  | dtype_object => PythonZero
  | dtype_int64 | dtype_float64 => NumpyScalar x
  end.

(** [target_increase / total_investment] at line 87: [None] is the
    [ZeroDivisionError] of dividing a Python integer by the Python integer 0. *)
Definition python_divide (a : Z) (b : sum_value) : option (float64 Q) :=
  match b with
  | PythonZero => None
  | NumpyScalar x => Some (true_divide (inject_Z a) x)
  end.

(** Lines 86-88 as the script runs them. *)
Inductive growth_outcome : Type :=
| Skipped
| Shown (v : float64 R)
| RaisesZeroDivisionError.

Definition required_growth
    (target_increase : Z) (total_investment : sum_value) (time_period : Z) : growth_outcome :=
  if ((0 <? target_increase)%Z && (0 <? time_period)%Z)%bool
  then
    match python_divide target_increase total_investment with
    | None => RaisesZeroDivisionError
    | Some ratio =>
        Shown (float_mul (float_sub (float_power ratio (1 / inject_Z time_period)) 1) 100)
    end
  else Skipped.

Definition shown_value (g : growth_outcome) : option (float64 R) :=
  match g with
  | Shown v => Some v
  | Skipped | RaisesZeroDivisionError => None
  end.

(** ** Queries *)

(** [ORDER BY key ASC] and [ORDER BY key DESC] with a single key.  The result
    holds the rows of the input, arranged so that the keys do not decrease
    (do not increase).  Nothing in the query orders rows with equal keys. *)
Section OrderBy.
Variable A : Type.
Variable key : A -> Q.

Definition ascending (a b : A) : Prop := key a <= key b.
Definition descending (a b : A) : Prop := key b <= key a.

Definition order_by_asc (input out : list A) : Prop :=
  Permutation input out /\ StronglySorted ascending out.

Definition order_by_desc (input out : list A) : Prop :=
  Permutation input out /\ StronglySorted descending out.
End OrderBy.
Arguments ascending {A} key a b.
Arguments descending {A} key a b.
Arguments order_by_asc {A} key input out.
Arguments order_by_desc {A} key input out.

(** A stable sort: [x] is put in front of the first row it is not above, so
    rows with equal keys keep the order of the input. *)
Section StableSort.
Variable A : Type.
Variable leb : A -> A -> bool.

Fixpoint insert_by (x : A) (l : list A) : list A :=
  match l with
  | [] => [x]
  | y :: t => if leb x y then x :: l else y :: insert_by x t
  end.

Fixpoint stable_sort (l : list A) : list A :=
  match l with
  | [] => []
  | x :: t => insert_by x (stable_sort t)
  end.
End StableSort.
Arguments insert_by {A} leb x l.
Arguments stable_sort {A} leb l.

Definition sort_asc {A} (key : A -> Q) : list A -> list A :=
  stable_sort (fun a b => Qle_bool (key a) (key b)).
Definition sort_desc {A} (key : A -> Q) : list A -> list A :=
  stable_sort (fun a b => Qle_bool (key b) (key a)).

(** [GROUP BY]: the distinct values of the grouping column, here in the order
    of their first row. *)
Fixpoint distinct (keys : list string) : list string :=
  match keys with
  | [] => []
  | k :: t => k :: filter (fun k' => negb (String.eqb k' k)) (distinct t)
  end.

(** *** At-risk investments (lines 93-107) *)

(** A row of the at-risk result: the eight selected columns. *)
Record AtRiskRow : Type := mkAtRisk {
  ar_clientId : string;
  ar_clientName : string;
  ar_productName : string;
  ar_investmentAmount : Q;
  ar_marketValue : Q;
  ar_gainLoss : Q;
  ar_sector : string;
  ar_riskLevel : string
}.

(** [WHERE "Market Value" < "Investment Amount"] *)
Definition at_risk_where (r : HoldingRecord) : bool :=
  Qlt_bool (marketValue r) (investmentAmount r).

(** The select list; ["Gain/Loss"] is the computed column. *)
Definition at_risk_select (r : HoldingRecord) : AtRiskRow :=
  {| ar_clientId := clientId r;
     ar_clientName := clientName r;
     ar_productName := productName r;
     ar_investmentAmount := investmentAmount r;
     ar_marketValue := marketValue r;
     ar_gainLoss := marketValue r - investmentAmount r;
     ar_sector := sector r;
     ar_riskLevel := riskLevel r |}.

(** [ORDER BY "Gain/Loss" ASC]: the name is bound to the output column. *)
Definition df_protip_data (client_data : list HoldingRecord) (out : list AtRiskRow) : Prop :=
  order_by_asc ar_gainLoss (map at_risk_select (filter at_risk_where client_data)) out.

(** *** Sector performance (lines 117-128) *)

Record SectorAggregate : Type := mkSector {
  sa_sector : string;
  totalInvested : Q;
  totalMarketValue : Q;
  netGainLoss : Q
}.

Definition sector_rows (k : string) (client_data : list HoldingRecord) : list HoldingRecord :=
  filter (fun r => String.eqb (sector r) k) client_data.

(** The three [SUM]s over the rows of a sector, each computed on its own. *)
Definition sector_aggregate (client_data : list HoldingRecord) (k : string) : SectorAggregate :=
  let g := sector_rows k client_data in
  {| sa_sector := k;
     totalInvested := sum (map investmentAmount g);
     totalMarketValue := sum (map marketValue g);
     netGainLoss := sum (map (fun r => marketValue r - investmentAmount r) g) |}.

Definition sector_groups (client_data : list HoldingRecord) : list SectorAggregate :=
  map (sector_aggregate client_data) (distinct (map sector client_data)).

(** [ORDER BY "Net Gain/Loss" DESC] *)
Definition sector_data (client_data : list HoldingRecord) (out : list SectorAggregate) : Prop :=
  order_by_desc netGainLoss (sector_groups client_data) out.

(** *** Top holdings (lines 142-152) *)

Record HoldingAggregate : Type := mkTop {
  ha_productName : string;
  ha_totalInvested : Q
}.

Definition product_rows (k : string) (client_data : list HoldingRecord) : list HoldingRecord :=
  filter (fun r => String.eqb (productName r) k) client_data.

Definition product_aggregate (client_data : list HoldingRecord) (k : string) : HoldingAggregate :=
  {| ha_productName := k;
     ha_totalInvested := sum (map investmentAmount (product_rows k client_data)) |}.

Definition product_groups (client_data : list HoldingRecord) : list HoldingAggregate :=
  map (product_aggregate client_data) (distinct (map productName client_data)).

(** [ORDER BY "Total Invested" DESC LIMIT 5] *)
Definition top_holdings_data (client_data : list HoldingRecord) (out : list HoldingAggregate) : Prop :=
  exists sorted,
    order_by_desc ha_totalInvested (product_groups client_data) sorted /\
    out = firstn 5 sorted.

(** ** The script *)

(** The KPI values of lines 63-67, shown at lines 69-77. *)
Record KpiPanel : Type := mkKpis {
  k_client_data : list HoldingRecord;
  k_total_investment : Q;
  k_total_market_value : Q;
  k_net_gain_loss : Q;
  k_annual_growth_required : float64 Q;
  k_actual_annual_growth : float64 Q      (* computed at line 67 *)
}.

Definition investment_dtype (data : DataFrame) : dtype :=
  column_dtype (map investmentAmount (rows data)).

Definition market_value_dtype (data : DataFrame) : dtype :=
  column_dtype (map marketValue (rows data)).

Definition kpi_panel (data : DataFrame) (selected_client : string) : KpiPanel :=
  let cd := client_data data selected_client in
  {| k_client_data := cd;
     k_total_investment := total_investment (investment_dtype data) cd;
     k_total_market_value := total_market_value (market_value_dtype data) cd;
     k_net_gain_loss := net_gain_loss (market_value_dtype data) (investment_dtype data) cd;
     k_annual_growth_required := annual_growth_required cd;
     k_actual_annual_growth := actual_annual_growth cd |}.

(** Lines 86-88 on the total investment of the KPI section. *)
Definition growth_step (data : DataFrame) (selected_client : string)
    (target_increase time_period : Z) : growth_outcome :=
  required_growth target_increase
    (scalar_value (investment_dtype data)
       (total_investment (investment_dtype data) (client_data data selected_client)))
    time_period.

(** What the page shows when the script runs to its end. *)
Record Dashboard : Type := mkDashboard {
  d_kpis : KpiPanel;
  d_expected_annual_growth : option (float64 R);
  d_at_risk : list AtRiskRow;
  d_sector_data : list SectorAggregate;
  d_top_holdings : list HoldingAggregate
}.

(** The outcomes of a run: the error message of line 32; the exception of
    line 87, raised after the KPI values were shown and before any query; the
    whole dashboard. *)
Inductive Page : Type :=
| MissingColumnsError (missing : list string)
| ZeroDivisionError (shown : KpiPanel)
| Rendered (d : Dashboard).

(** One run of the script on the loaded frame and the sidebar inputs. *)
Inductive script (data : DataFrame) (selected_client : string)
    (target_increase time_period : Z) : Page -> Prop :=
| script_missing :
    missing_columns data <> [] ->
    script data selected_client target_increase time_period
      (MissingColumnsError (missing_columns data))
| script_zero_division :
    missing_columns data = [] ->
    growth_step data selected_client target_increase time_period =
      RaisesZeroDivisionError ->
    script data selected_client target_increase time_period
      (ZeroDivisionError (kpi_panel data selected_client))
| script_rendered : forall at_risk sectors top,
    missing_columns data = [] ->
    growth_step data selected_client target_increase time_period <>
      RaisesZeroDivisionError ->
    let cd := client_data data selected_client in
    df_protip_data cd at_risk ->
    sector_data cd sectors ->
    top_holdings_data cd top ->
    script data selected_client target_increase time_period
      (Rendered
         {| d_kpis := kpi_panel data selected_client;
            d_expected_annual_growth :=
              shown_value (growth_step data selected_client target_increase time_period);
            d_at_risk := at_risk;
            d_sector_data := sectors;
            d_top_holdings := top |}).

(** The KPI values a page shows, if it gets that far. *)
Definition shown_kpis (page : Page) : option KpiPanel :=
  match page with
  | MissingColumnsError _ => None
  | ZeroDivisionError k => Some k
  | Rendered d => Some (d_kpis d)
  end.

(** ** The operations in the spec's words *)

(** Sum of the values of a column, as a recursion on the rows. *)
Fixpoint sigma (col : list Q) : Q :=
  match col with
  | [] => 0
  | x :: t => x + sigma t
  end.

(** [l] keeps the relative order of [m]: it is [m] with some rows left out. *)
Inductive Subseq {A : Type} : list A -> list A -> Prop :=
| Subseq_nil : Subseq [] []
| Subseq_keep : forall x l m, Subseq l m -> Subseq (x :: l) (x :: m)
| Subseq_skip : forall x l m, Subseq l m -> Subseq l (x :: m).

(** The spec's [computeAtRisk]: filter, recompute the gain, stable sort in
    ascending order of the gain. *)
Definition computeAtRisk (subset : list HoldingRecord) : list AtRiskRow :=
  sort_asc ar_gainLoss (map at_risk_select (filter at_risk_where subset)).

(** The spec's [computeSectorSummary]: groups in first-seen order, the net
    derived from the two totals, stable sort in descending order of the net. *)
Definition computeSectorSummary (subset : list HoldingRecord) : list SectorAggregate :=
  sort_desc netGainLoss
    (map (fun k =>
            let g := sector_rows k subset in
            {| sa_sector := k;
               totalInvested := sigma (map investmentAmount g);
               totalMarketValue := sigma (map marketValue g);
               netGainLoss := sigma (map marketValue g) - sigma (map investmentAmount g) |})
         (distinct (map sector subset))).

(** The frame without the column [col]. *)
Definition drop_column (col : string) (data : DataFrame) : DataFrame :=
  {| columns := filter (fun c => negb (String.eqb c col)) (columns data);
     rows := rows data |}.

(** The sum of [f] over the rows of the group [k]. *)
Definition group_sum {A : Type} (key : A -> string) (f : A -> Q)
    (l : list A) (k : string) : Q :=
  sigma (map f (filter (fun r => String.eqb (key r) k) l)).

(** The dashboard of a run in which every [ORDER BY] returns the stable
    order. *)
Definition reference_dashboard (data : DataFrame) (selected_client : string)
    (target_increase time_period : Z) : Dashboard :=
  let cd := client_data data selected_client in
  {| d_kpis := kpi_panel data selected_client;
     d_expected_annual_growth :=
       shown_value (growth_step data selected_client target_increase time_period);
     d_at_risk := sort_asc ar_gainLoss (map at_risk_select (filter at_risk_where cd));
     d_sector_data := sort_desc netGainLoss (sector_groups cd);
     d_top_holdings := firstn 5 (sort_desc ha_totalInvested (product_groups cd)) |}.

(** The sum of the absolute values of a column. *)
Definition abs_sum (col : list Q) : Q := sigma (map Qabs col).

(** The cells of a column are integers. *)
Definition integer_cells (col : list Q) : Prop :=
  forall x, In x col -> is_integer x = true.

(** The amounts of the rows are integers whose absolute values add up to
    less than 2^53: every sum and difference of them is an integer that int64
    and binary64 hold exactly. *)
Definition small_integer_amounts (client_data : list HoldingRecord) : Prop :=
  integer_cells (map investmentAmount client_data) /\
  integer_cells (map marketValue client_data) /\
  abs_sum (map investmentAmount client_data) + abs_sum (map marketValue client_data)
    < inject_Z (2 ^ 53).



(** ** Sample data *)

Definition alice_a : HoldingRecord :=
  mkHolding "C001" "Alice" "Fund A" 100 90 0 "Tech" "High" 8 5.
Definition alice_b : HoldingRecord :=
  mkHolding "C001" "Alice" "Fund B" 50 60 0 "Energy" "Low" 6 7.
Definition alice_c : HoldingRecord :=
  mkHolding "C001" "Alice" "Fund C" 200 150 0 "Tech" "Medium" 7 (-3).
Definition bob_a : HoldingRecord :=
  mkHolding "C002" "Bob" "Fund A" 100 120 20 "Tech" "High" 8 9.
Definition bob_b : HoldingRecord :=
  mkHolding "C002" "Bob" "Fund D" 200 180 (-20) "Health" "Low" 5 (-2).

Definition sample_rows : list HoldingRecord :=
  [alice_a; bob_a; alice_b; bob_b; alice_c].

Definition sample : DataFrame :=
  {| columns := required_columns; rows := sample_rows |}.

Definition tie_a : HoldingRecord :=
  mkHolding "C003" "Carol" "Fund E" 100 90 0 "Tech" "High" 8 5.
Definition tie_b : HoldingRecord :=
  mkHolding "C003" "Carol" "Fund F" 50 40 0 "Energy" "Low" 6 7.

(** A sheet that has the header row only. *)
Definition header_only : DataFrame :=
  {| columns := required_columns; rows := [] |}.

(** Two holdings of 2^62 each, in an integer column. *)
Definition big_a : HoldingRecord :=
  mkHolding "C005" "Eve" "Fund I" 4611686018427387904 4611686018427387904 0
            "Tech" "High" 8 5.
Definition big_b : HoldingRecord :=
  mkHolding "C005" "Eve" "Fund J" 4611686018427387904 4611686018427387904 0
            "Tech" "Low" 6 7.

Definition big_sheet : DataFrame :=
  {| columns := required_columns; rows := [big_a; big_b] |}.

(** Twenty-five at-risk holdings with the same loss of 10, named A to Y. *)
Definition tied_row (n : nat) : HoldingRecord :=
  mkHolding "C006" "Finn" (String (Ascii.ascii_of_nat (65 + n)) EmptyString)
            100 90 0 "Tech" "High" 8 5.
Definition tied_rows : list HoldingRecord := map tied_row (seq 0 25).

Definition tech_a : HoldingRecord :=
  mkHolding "C004" "Dan" "Fund G" 100 150 0 "Tech" "High" 9 12.
Definition tech_b : HoldingRecord :=
  mkHolding "C004" "Dan" "Fund H" 50 40 0 "Tech" "Low" 4 (-6).

(** ** Further definitions *)

(** Two rows agree on the columns the at-risk query reads. *)
Definition at_risk_columns_agree (r r' : HoldingRecord) : Prop :=
  clientId r = clientId r' /\
  clientName r = clientName r' /\
  productName r = productName r' /\
  investmentAmount r = investmentAmount r' /\
  marketValue r = marketValue r' /\
  sector r = sector r' /\
  riskLevel r = riskLevel r'.


(** ** Lemmas on sums *)

Lemma fold_left_Qplus_sigma (col : list Q) (a : Q) :
  fold_left Qplus col a == a + sigma col.
Proof.
  revert a; induction col as [|x t IH]; intros a; simpl.
  - ring.
  - rewrite IH. ring.
Qed.

Lemma sum_sigma (col : list Q) : sum col == sigma col.
Proof. unfold sum. rewrite fold_left_Qplus_sigma. ring. Qed.

Lemma sigma_map_Permutation (A : Type) (f : A -> Q) (l m : list A) :
  Permutation l m -> sigma (map f l) == sigma (map f m).
Proof.
  induction 1 as [|x l m _ IH|x y l|l m n _ IH1 _ IH2]; simpl.
  - reflexivity.
  - rewrite IH. reflexivity.
  - ring.
  - rewrite IH1. exact IH2.
Qed.

Lemma sigma_map_minus (A : Type) (f g : A -> Q) (l : list A) :
  sigma (map (fun r => f r - g r) l) == sigma (map f l) - sigma (map g l).
Proof.
  induction l as [|x t IH]; simpl.
  - ring.
  - rewrite IH. ring.
Qed.

(** ** Lemmas on machine sums *)


Lemma is_integer_inject (x : Q) : is_integer x = true -> exists z, x == inject_Z z.
Proof.
  unfold is_integer. intros H. apply Z.eqb_eq in H.
  exists (Qnum (Qred x)). rewrite <- (Qred_correct x) at 1.
  destruct (Qred x) as [n d]. simpl in *. injection H as ->. reflexivity.
Qed.

Lemma sigma_integer (col : list Q) :
  integer_cells col -> exists z, sigma col == inject_Z z.
Proof.
  induction col as [|x t IH]; intros H; simpl.
  - exists 0%Z. reflexivity.
  - destruct (is_integer_inject x) as [zx Hx]; [apply H; left; reflexivity|].
    destruct IH as [zt Ht]; [intros y Hy; apply H; right; exact Hy|].
    exists (zx + zt)%Z. rewrite Hx, Ht, inject_Z_plus. reflexivity.
Qed.

Lemma wrap64_small (z : Z) : (- 2 ^ 63 <= z < 2 ^ 63)%Z -> wrap64 z = z.
Proof. intros H. unfold wrap64. rewrite Z.mod_small; lia. Qed.

Lemma Qabs_sigma (col : list Q) : Qabs (sigma col) <= abs_sum col.
Proof.
  unfold abs_sum. induction col as [|x t IH]; simpl.
  - apply Qle_refl.
  - eapply Qle_trans; [apply Qabs_triangle|].
    apply Qplus_le_compat; [apply Qle_refl|exact IH].
Qed.

Lemma wrap64_inject (q : Q) (z : Z) :
  q == inject_Z z -> Qabs q < inject_Z (2 ^ 63) ->
  inject_Z (wrap64 (Qfloor q)) == q.
Proof.
  intros Hq Hb.
  assert (Hf : Qfloor q = z) by (rewrite (Qfloor_comp _ _ Hq); apply Qfloor_Z).
  rewrite Hf, Hq. rewrite Hq in Hb.
  change (Qabs (inject_Z z)) with (inject_Z (Z.abs z)) in Hb.
  rewrite <- Zlt_Qlt in Hb. rewrite wrap64_small; [reflexivity|lia].
Qed.

Lemma series_sum_exact (dt : dtype) (col : list Q) :
  integer_cells col -> abs_sum col < inject_Z (2 ^ 53) ->
  series_sum dt col == sigma col.
Proof.
  intros Hint Hb. destruct dt; unfold series_sum; try apply sum_sigma.
  destruct (sigma_integer col Hint) as [z Hz].
  rewrite (sum_sigma col).
  apply (wrap64_inject _ z Hz).
  eapply Qle_lt_trans; [apply Qabs_sigma|].
  eapply Qlt_trans; [exact Hb|]. rewrite <- Zlt_Qlt. reflexivity.
Qed.

Lemma scalar_sub_exact (dt_a dt_b : dtype) (a b : Q) (za zb : Z) :
  a == inject_Z za -> b == inject_Z zb ->
  Qabs a < inject_Z (2 ^ 53) -> Qabs b < inject_Z (2 ^ 53) ->
  scalar_sub dt_a dt_b a b == a - b.
Proof.
  intros Ha Hb Ba Bb.
  destruct dt_a, dt_b; unfold scalar_sub; try reflexivity.
  apply (wrap64_inject _ (za - zb)%Z).
  - rewrite Ha, Hb. unfold Zminus. rewrite inject_Z_plus, inject_Z_opp. reflexivity.
  - rewrite Ha, Hb in *.
    change (Qabs (inject_Z za)) with (inject_Z (Z.abs za)) in Ba.
    change (Qabs (inject_Z zb)) with (inject_Z (Z.abs zb)) in Bb.
    rewrite <- Zlt_Qlt in Ba, Bb.
    setoid_replace (inject_Z za - inject_Z zb) with (inject_Z (za - zb)%Z)
      by (unfold Zminus; rewrite inject_Z_plus, inject_Z_opp; reflexivity).
    change (Qabs (inject_Z (za - zb))) with (inject_Z (Z.abs (za - zb))).
    rewrite <- Zlt_Qlt.
    assert (H53 : (2 ^ 53 = 9007199254740992)%Z) by reflexivity.
    assert (H63 : (2 ^ 63 = 9223372036854775808)%Z) by reflexivity.
    lia.
Qed.

Lemma abs_sum_nonneg (col : list Q) : 0 <= abs_sum col.
Proof.
  unfold abs_sum. induction col as [|x t IH]; simpl.
  - apply Qle_refl.
  - pose proof (Qabs_nonneg x). Lqa.lra.
Qed.

Lemma kpi_totals_exact (dt_inv dt_mv : dtype) (client_data : list HoldingRecord) :
  small_integer_amounts client_data ->
  total_investment dt_inv client_data == sigma (map investmentAmount client_data) /\
  total_market_value dt_mv client_data == sigma (map marketValue client_data) /\
  net_gain_loss dt_mv dt_inv client_data ==
    sigma (map marketValue client_data) - sigma (map investmentAmount client_data).
Proof.
  intros (Hi & Hm & B).
  pose proof (abs_sum_nonneg (map investmentAmount client_data)) as Ni.
  pose proof (abs_sum_nonneg (map marketValue client_data)) as Nm.
  assert (Bi : abs_sum (map investmentAmount client_data) < inject_Z (2 ^ 53))
    by Lqa.lra.
  assert (Bm : abs_sum (map marketValue client_data) < inject_Z (2 ^ 53))
    by Lqa.lra.
  assert (Ei : total_investment dt_inv client_data ==
               sigma (map investmentAmount client_data))
    by (apply series_sum_exact; assumption).
  assert (Em : total_market_value dt_mv client_data ==
               sigma (map marketValue client_data))
    by (apply series_sum_exact; assumption).
  split; [exact Ei|]. split; [exact Em|].
  destruct (sigma_integer _ Hi) as [zi Zi]. destruct (sigma_integer _ Hm) as [zm Zm].
  unfold net_gain_loss.
  rewrite (scalar_sub_exact dt_mv dt_inv _ _ zm zi).
  - rewrite Ei, Em. reflexivity.
  - rewrite Em. exact Zm.
  - rewrite Ei. exact Zi.
  - rewrite Em. eapply Qle_lt_trans; [apply Qabs_sigma|exact Bm].
  - rewrite Ei. eapply Qle_lt_trans; [apply Qabs_sigma|exact Bi].
Qed.

(** ** Lemmas on sorting *)

Section StableSortFacts.
Variable A : Type.
Variable leb : A -> A -> bool.
Variable R : A -> A -> Prop.
Hypothesis leb_true : forall a b, leb a b = true -> R a b.
Hypothesis leb_false : forall a b, leb a b = false -> R b a.
Hypothesis R_trans : forall a b c, R a b -> R b c -> R a c.

Lemma insert_by_Permutation (x : A) (l : list A) :
  Permutation (x :: l) (insert_by leb x l).
Proof.
  induction l as [|y t IH]; simpl.
  - apply Permutation_refl.
  - destruct (leb x y).
    + apply Permutation_refl.
    + eapply Permutation_trans; [apply perm_swap|].
      apply perm_skip. exact IH.
Qed.

Lemma stable_sort_Permutation (l : list A) :
  Permutation l (stable_sort leb l).
Proof.
  induction l as [|x t IH]; simpl.
  - apply Permutation_refl.
  - eapply Permutation_trans; [apply perm_skip; exact IH|].
    apply insert_by_Permutation.
Qed.

Lemma insert_by_StronglySorted (x : A) (l : list A) :
  StronglySorted R l -> StronglySorted R (insert_by leb x l).
Proof.
  induction 1 as [|y t Ht IH Hy]; simpl.
  - constructor; constructor.
  - destruct (leb x y) eqn:E.
    + constructor; [constructor; assumption|].
      constructor; [apply leb_true; exact E|].
      eapply Forall_impl; [|exact Hy].
      intros z Hz. eapply R_trans; [apply leb_true; exact E|exact Hz].
    + constructor; [exact IH|].
      eapply Permutation_Forall; [apply insert_by_Permutation|].
      constructor; [apply leb_false; exact E|exact Hy].
Qed.

Lemma stable_sort_StronglySorted (l : list A) :
  StronglySorted R (stable_sort leb l).
Proof.
  induction l as [|x t IH]; simpl.
  - constructor.
  - apply insert_by_StronglySorted. exact IH.
Qed.
End StableSortFacts.

Lemma Qle_bool_false (x y : Q) : Qle_bool x y = false -> y <= x.
Proof.
  intros E. destruct (Qlt_le_dec y x) as [H|H].
  - apply Qlt_le_weak. exact H.
  - apply Qle_bool_iff in H. congruence.
Qed.

(** The stable sort is one of the results [ORDER BY] allows; in particular a
    result exists for every input. *)
Lemma sort_asc_order_by (A : Type) (key : A -> Q) (l : list A) :
  order_by_asc key l (sort_asc key l).
Proof.
  split.
  - apply stable_sort_Permutation.
  - apply stable_sort_StronglySorted.
    + intros a b E. apply Qle_bool_iff. exact E.
    + intros a b E. apply Qle_bool_false. exact E.
    + intros a b c. unfold ascending. apply Qle_trans.
Qed.

Lemma sort_desc_order_by (A : Type) (key : A -> Q) (l : list A) :
  order_by_desc key l (sort_desc key l).
Proof.
  split.
  - apply stable_sort_Permutation.
  - apply stable_sort_StronglySorted.
    + intros a b E. apply Qle_bool_iff. exact E.
    + intros a b E. apply Qle_bool_false. exact E.
    + intros a b c H1 H2. unfold descending in *. eapply Qle_trans; eassumption.
Qed.

(** Apart from ties the sort key fixes the result: two sorted arrangements
    of the same rows are equal when rows related both ways are equal. *)
Lemma sorted_Permutation_unique (A : Type) (R : A -> A -> Prop) (l1 : list A) :
  forall l2,
    (forall a b, In a l1 -> In b l1 -> R a b -> R b a -> a = b) ->
    StronglySorted R l1 -> StronglySorted R l2 -> Permutation l1 l2 ->
    l1 = l2.
Proof.
  induction l1 as [|a t1 IH]; intros l2 Hinj H1 H2 Hperm.
  - apply Permutation_nil in Hperm. symmetry. exact Hperm.
  - destruct l2 as [|b t2].
    + apply Permutation_sym, Permutation_nil in Hperm. discriminate.
    + inversion H1 as [|? ? Ht1 Ha]. inversion H2 as [|? ? Ht2 Hb]. subst.
      assert (Hab : a = b).
      { assert (Hin_a : In a (b :: t2))
          by (apply (Permutation_in _ Hperm); left; reflexivity).
        assert (Hin_b : In b (a :: t1))
          by (apply (Permutation_in _ (Permutation_sym Hperm)); left; reflexivity).
        destruct Hin_a as [E|Hin_a]; [symmetry; exact E|].
        destruct Hin_b as [E|Hin_b]; [exact E|].
        apply Hinj.
        - left. reflexivity.
        - right. exact Hin_b.
        - exact (proj1 (Forall_forall _ _) Ha b Hin_b).
        - exact (proj1 (Forall_forall _ _) Hb a Hin_a). }
      subst b. f_equal. apply IH.
      * intros x y Hx Hy. apply Hinj; right; assumption.
      * exact Ht1.
      * exact Ht2.
      * apply (Permutation_cons_inv Hperm).
Qed.

Lemma order_by_asc_unique (A : Type) (key : A -> Q) (l out1 out2 : list A) :
  (forall a b, In a out1 -> In b out1 -> key a == key b -> a = b) ->
  order_by_asc key l out1 -> order_by_asc key l out2 -> out1 = out2.
Proof.
  intros Hinj [P1 S1] [P2 S2].
  apply (sorted_Permutation_unique A (ascending key)); try assumption.
  - intros a b Ha Hb H1 H2. apply Hinj; try assumption.
    apply Qle_antisym; assumption.
  - eapply Permutation_trans; [apply Permutation_sym; exact P1|exact P2].
Qed.

Lemma order_by_desc_unique (A : Type) (key : A -> Q) (l out1 out2 : list A) :
  (forall a b, In a out1 -> In b out1 -> key a == key b -> a = b) ->
  order_by_desc key l out1 -> order_by_desc key l out2 -> out1 = out2.
Proof.
  intros Hinj [P1 S1] [P2 S2].
  apply (sorted_Permutation_unique A (descending key)); try assumption.
  - intros a b Ha Hb H1 H2. apply Hinj; try assumption.
    apply Qle_antisym; assumption.
  - eapply Permutation_trans; [apply Permutation_sym; exact P1|exact P2].
Qed.

Lemma Qlt_bool_iff (x y : Q) : Qlt_bool x y = true <-> x < y.
Proof.
  unfold Qlt_bool. rewrite Qlt_alt.
  destruct (x ?= y); split; intros H; congruence.
Qed.

(** ** Lemmas on grouping *)

Lemma distinct_In (k : string) (keys : list string) :
  In k (distinct keys) <-> In k keys.
Proof.
  induction keys as [|a t IH]; simpl.
  - tauto.
  - rewrite filter_In, IH. split.
    + intros [H|[H _]]; auto.
    + intros [H|H]; auto.
      destruct (String.eqb_spec k a) as [E|E]; [left; auto|right].
      split; [exact H|reflexivity].
Qed.

Lemma distinct_NoDup (keys : list string) : NoDup (distinct keys).
Proof.
  induction keys as [|a t IH]; simpl.
  - constructor.
  - constructor.
    + rewrite filter_In. intros [_ H].
      rewrite String.eqb_refl in H. discriminate.
    + apply NoDup_filter. exact IH.
Qed.

Lemma filter_neq_notin (k : string) (keys : list string) :
  ~ In k keys -> filter (fun k' => negb (String.eqb k' k)) keys = keys.
Proof.
  induction keys as [|a t IH]; simpl; intros H.
  - reflexivity.
  - destruct (String.eqb_spec a k) as [E|E]; simpl.
    + exfalso. apply H. left. exact E.
    + rewrite IH; [reflexivity|]. intros Hin. apply H. right. exact Hin.
Qed.

Lemma sigma_split_key (g : string -> Q) (k : string) (keys : list string) :
  NoDup keys -> In k keys ->
  sigma (map g keys) ==
  g k + sigma (map g (filter (fun k' => negb (String.eqb k' k)) keys)).
Proof.
  induction 1 as [|a t Ha Ht IH]; simpl; intros Hin.
  - contradiction.
  - destruct (String.eqb_spec a k) as [E|E]; simpl.
    + subst a. rewrite filter_neq_notin by exact Ha. reflexivity.
    + destruct Hin as [Hin|Hin]; [contradiction|].
      rewrite IH by exact Hin. ring.
Qed.

(** Grouping partitions the rows: the group sums add up to the sum over all
    rows. *)
Section GroupBy.
Variable A : Type.
Variable key : A -> string.
Variable f : A -> Q.

Lemma group_sum_notin (l : list A) (k : string) :
  ~ In k (map key l) -> filter (fun r => String.eqb (key r) k) l = [].
Proof.
  induction l as [|a t IH]; simpl; intros H.
  - reflexivity.
  - destruct (String.eqb_spec (key a) k) as [E|E].
    + exfalso. apply H. left. exact E.
    + apply IH. intros Hin. apply H. right. exact Hin.
Qed.

Lemma sigma_group_sums (l : list A) :
  sigma (map (group_sum key f l) (distinct (map key l))) == sigma (map f l).
Proof.
  induction l as [|a t IH]; simpl.
  - reflexivity.
  - set (D := distinct (map key t)) in *.
    set (L := filter (fun k' => negb (String.eqb k' (key a))) D).
    assert (Hhead : group_sum key f (a :: t) (key a) == f a + group_sum key f t (key a)).
    { unfold group_sum. simpl. rewrite String.eqb_refl. simpl. reflexivity. }
    assert (Htail : map (group_sum key f (a :: t)) L = map (group_sum key f t) L).
    { apply map_ext_in. intros k Hk. unfold L in Hk.
      apply filter_In in Hk. destruct Hk as [_ Hk].
      apply negb_true_iff in Hk. unfold group_sum. simpl.
      rewrite String.eqb_sym, Hk. reflexivity. }
    rewrite Hhead, Htail, <- IH.
    destruct (in_dec string_dec (key a) D) as [Hin|Hnot].
    + pose proof (sigma_split_key (group_sum key f t) (key a) D (distinct_NoDup _) Hin) as Hs.
      fold D L in Hs. rewrite Hs. ring.
    + unfold L. rewrite (filter_neq_notin (key a) D Hnot).
      unfold group_sum at 1. rewrite group_sum_notin.
      * simpl. ring.
      * intros Hin. apply Hnot. apply distinct_In. exact Hin.
Qed.
End GroupBy.

(** ** Lemmas on the header check and the script *)

Lemma Subseq_filter (A : Type) (f : A -> bool) (l : list A) : Subseq (filter f l) l.
Proof.
  induction l as [|x t IH]; simpl.
  - constructor.
  - destruct (f x); constructor; exact IH.
Qed.

Lemma col_in_iff (col : string) (cols : list string) :
  col_in col cols = true <-> In col cols.
Proof.
  unfold col_in. rewrite existsb_exists. split.
  - intros [x [Hx E]]. apply String.eqb_eq in E. subst x. exact Hx.
  - intros H. exists col. split; [exact H|apply String.eqb_refl].
Qed.

Lemma missing_columns_In (data : DataFrame) (col : string) :
  In col (missing_columns data) <->
  In col required_columns /\ ~ In col (columns data).
Proof.
  unfold missing_columns. rewrite filter_In, negb_true_iff.
  rewrite <- (col_in_iff col (columns data)).
  destruct (col_in col (columns data)); intuition congruence.
Qed.

Lemma missing_columns_nil (data : DataFrame) :
  missing_columns data = [] <->
  (forall col, In col required_columns -> In col (columns data)).
Proof.
  split.
  - intros E col Hc. apply col_in_iff.
    destruct (col_in col (columns data)) eqn:Hin; [reflexivity|].
    assert (H : In col (missing_columns data)).
    { apply missing_columns_In. split; [exact Hc|].
      rewrite <- col_in_iff. congruence. }
    rewrite E in H. contradiction.
  - intros H. destruct (missing_columns data) as [|c m] eqn:E; [reflexivity|].
    assert (Hc : In c (missing_columns data)) by (rewrite E; left; reflexivity).
    apply missing_columns_In in Hc. destruct Hc as [Hc Hn].
    exfalso. apply Hn. apply H. exact Hc.
Qed.

Lemma required_columns_NoDup : NoDup required_columns.
Proof.
  unfold required_columns.
  repeat (constructor; [simpl; intuition discriminate|]).
  constructor.
Qed.

Lemma filter_eqb_NoDup (k : string) (keys : list string) :
  NoDup keys -> In k keys -> filter (fun k' => String.eqb k' k) keys = [k].
Proof.
  induction 1 as [|a t Ha Ht IH]; simpl; intros Hin.
  - contradiction.
  - destruct (String.eqb_spec a k) as [E|E].
    + subst a. f_equal.
      clear IH Hin Ht. induction t as [|b t IH]; simpl; [reflexivity|].
      destruct (String.eqb_spec b k) as [E|E].
      * exfalso. apply Ha. left. exact E.
      * apply IH. intros H. apply Ha. right. exact H.
    + destruct Hin as [Hin|Hin]; [contradiction|]. apply IH. exact Hin.
Qed.

Lemma missing_columns_drop (data : DataFrame) (col : string) :
  (forall c, In c required_columns -> In c (columns data)) ->
  In col required_columns ->
  missing_columns (drop_column col data) = [col].
Proof.
  intros Hall Hcol. unfold missing_columns.
  rewrite <- (filter_eqb_NoDup col required_columns required_columns_NoDup Hcol).
  apply filter_ext_in. intros c Hc. simpl.
  destruct (String.eqb_spec c col) as [E|E].
  - apply negb_true_iff. destruct (col_in c _) eqn:Hin; [|reflexivity].
    apply col_in_iff in Hin. apply filter_In in Hin. destruct Hin as [_ Hin].
    subst c. rewrite String.eqb_refl in Hin. discriminate.
  - apply negb_false_iff. apply col_in_iff. apply filter_In.
    split; [apply Hall; exact Hc|].
    apply negb_true_iff. apply String.eqb_neq. exact E.
Qed.

(** Line 87 raises exactly on a frame without rows, under the guard. *)
Lemma growth_step_raises (data : DataFrame) (selected_client : string)
    (target_increase time_period : Z) :
  growth_step data selected_client target_increase time_period = RaisesZeroDivisionError <->
  rows data = [] /\ (0 < target_increase)%Z /\ (0 < time_period)%Z.
Proof.
  unfold growth_step, required_growth, investment_dtype, column_dtype.
  destruct (Z.ltb_spec 0 target_increase) as [Ht|Ht];
    destruct (Z.ltb_spec 0 time_period) as [Hy|Hy]; simpl;
    try (split; [discriminate|intros (_ & H1 & H2); lia]).
  destruct (rows data) as [|r t] eqn:E; simpl.
  - split; [intros _; repeat split; assumption|reflexivity].
  - destruct (is_int64_cell (investmentAmount r) &&
              forallb is_int64_cell (map investmentAmount t)); simpl;
      (split; [discriminate|intros (H & _); discriminate]).
Qed.

Lemma growth_step_dec (data : DataFrame) (selected_client : string)
    (target_increase time_period : Z) :
  {growth_step data selected_client target_increase time_period = RaisesZeroDivisionError} +
  {growth_step data selected_client target_increase time_period <> RaisesZeroDivisionError}.
Proof.
  destruct (growth_step data selected_client target_increase time_period);
    [right; discriminate|right; discriminate|left; reflexivity].
Qed.

(** A run that does not raise ends with the dashboard. *)
Lemma script_reference_run (data : DataFrame) (selected_client : string)
    (target_increase time_period : Z) :
  missing_columns data = [] ->
  growth_step data selected_client target_increase time_period <>
    RaisesZeroDivisionError ->
  script data selected_client target_increase time_period
    (Rendered (reference_dashboard data selected_client target_increase time_period)).
Proof.
  intros E Hg. unfold reference_dashboard.
  apply script_rendered.
  - exact E.
  - exact Hg.
  - apply sort_asc_order_by.
  - apply sort_desc_order_by.
  - eexists. split; [apply sort_desc_order_by|reflexivity].
Qed.

(** The script always has an outcome. *)
Lemma script_outcome_exists (data : DataFrame) (selected_client : string)
    (target_increase time_period : Z) :
  exists page, script data selected_client target_increase time_period page.
Proof.
  destruct (missing_columns data) as [|c m] eqn:E.
  - destruct (growth_step_dec data selected_client target_increase time_period) as [Hg|Hg].
    + eexists. apply script_zero_division; assumption.
    + eexists. apply script_reference_run; assumption.
  - eexists. apply script_missing. rewrite E. discriminate.
Qed.

Lemma script_rendered_exists (data : DataFrame) (selected_client : string)
    (target_increase time_period : Z) :
  missing_columns data = [] ->
  rows data <> [] \/ ~ ((0 < target_increase)%Z /\ (0 < time_period)%Z) ->
  exists d, script data selected_client target_increase time_period (Rendered d).
Proof.
  intros E Hok. eexists. apply script_reference_run; [exact E|].
  intros Hg. apply growth_step_raises in Hg. destruct Hg as (Hr & Ht & Hy).
  destruct Hok as [Hok|Hok]; [contradiction|apply Hok; split; assumption].
Qed.

Lemma script_rendered_only (data : DataFrame) (selected_client : string)
    (target_increase time_period : Z) (page : Page) :
  missing_columns data = [] ->
  rows data <> [] \/ ~ ((0 < target_increase)%Z /\ (0 < time_period)%Z) ->
  script data selected_client target_increase time_period page ->
  exists d, page = Rendered d.
Proof.
  intros E Hok H. inversion H as [Hm|Hm Hg|? ? ? Hm Hg].
  - contradiction.
  - apply growth_step_raises in Hg. destruct Hg as (Hr & Ht & Hy).
    destruct Hok as [Hok|Hok]; [contradiction|exfalso; apply Hok; split; assumption].
  - eexists. reflexivity.
Qed.

Lemma script_missing_only (data : DataFrame) (selected_client : string)
    (target_increase time_period : Z) (page : Page) :
  missing_columns data <> [] ->
  (script data selected_client target_increase time_period page <->
   page = MissingColumnsError (missing_columns data)).
Proof.
  intros Hne. split.
  - intros H. inversion H as [Hm|Hm Hg|? ? ? Hm Hg]; [reflexivity|contradiction|contradiction].
  - intros ->. apply script_missing. exact Hne.
Qed.

Lemma client_data_no_match (data : DataFrame) (selected_client : string) :
  (forall r, In r (rows data) -> clientName r <> selected_client) ->
  client_data data selected_client = [].
Proof.
  unfold client_data. induction (rows data) as [|x t IH]; intros Hno; simpl.
  - reflexivity.
  - destruct (String.eqb_spec (clientName x) selected_client) as [E|E].
    + exfalso. apply (Hno x); [left; reflexivity|exact E].
    + apply IH. intros r Hr. apply Hno. right. exact Hr.
Qed.

(** ** Claims *)

(** C2.  A frame that has the ten required columns passes the check: the
    script has an outcome, no outcome is the missing-column error, and the
    outcome is the dashboard whenever the frame has a row (a frame without
    rows can raise at line 87).  A frame that
    lacks some of the columns gives the error page and nothing else, and the
    reported list holds exactly the required names that are absent, once
    each, in the order of [required_columns].  Dropping one required column
    from a complete frame reports that column alone. *)
Theorem missing_columns_report :
  forall (data : DataFrame) (selected_client : string) (target_increase time_period : Z),
    (forall col, In col (missing_columns data) <->
                 In col required_columns /\ ~ In col (columns data)) /\
    NoDup (missing_columns data) /\
    Subseq (missing_columns data) required_columns /\
    ((forall col, In col required_columns -> In col (columns data)) ->
     (exists page, script data selected_client target_increase time_period page) /\
     (forall page, script data selected_client target_increase time_period page ->
                   forall missing, page <> MissingColumnsError missing) /\
     (rows data <> [] ->
      (exists d, script data selected_client target_increase time_period (Rendered d)) /\
      (forall page, script data selected_client target_increase time_period page ->
                    exists d, page = Rendered d))) /\
    (~ (forall col, In col required_columns -> In col (columns data)) ->
     missing_columns data <> [] /\
     (forall page, script data selected_client target_increase time_period page <->
                   page = MissingColumnsError (missing_columns data))) /\
    (forall col,
        (forall c, In c required_columns -> In c (columns data)) ->
        In col required_columns ->
        forall page,
          script (drop_column col data) selected_client target_increase time_period page <->
          page = MissingColumnsError [col]).
Proof.
  intros data sel t y.
  split; [intros col; apply missing_columns_In|].
  split; [apply NoDup_filter; apply required_columns_NoDup|].
  split; [apply Subseq_filter|].
  split; [|split].
  - intros Hall. apply missing_columns_nil in Hall. split; [|split].
    + apply script_outcome_exists.
    + intros page H missing E. subst page.
      inversion H as [Hm| |]. contradiction.
    + intros Hrows. split.
      * apply script_rendered_exists; [assumption|left; exact Hrows].
      * intros page H. apply (script_rendered_only data sel t y); [assumption| |exact H].
        left. exact Hrows.
  - intros Hnot.
    assert (Hne : missing_columns data <> []).
    { intros E. apply Hnot. apply missing_columns_nil. exact E. }
    split; [exact Hne|].
    intros page. apply script_missing_only. exact Hne.
  - intros col Hall Hcol page.
    rewrite <- (missing_columns_drop data col Hall Hcol).
    apply script_missing_only.
    rewrite (missing_columns_drop data col Hall Hcol). discriminate.
Qed.

Lemma sample_complete : forall col, In col required_columns -> In col (columns sample).
Proof. intros col H. exact H. Qed.

Lemma missing_columns_report_witness :
  (exists d, script sample "Alice" 100000 3 (Rendered d)) /\
  script (drop_column "Sector" sample) "Alice" 100000 3 (MissingColumnsError ["Sector"]).
Proof.
  destruct (missing_columns_report sample "Alice" 100000 3)
    as (_ & _ & _ & Hok & _ & Hdrop).
  split.
  - apply (proj2 (proj2 (Hok sample_complete))).
    discriminate.
  - apply (Hdrop "Sector" sample_complete); [|reflexivity].
    simpl. do 6 right. left. reflexivity.
Defined.

(** C3.  The client's rows are the rows of the table whose Client Name equals
    the selected name: they keep the order of the table, every one of them
    carries the name, no row with the name is left out (any selection of
    rows with that name, in table order, is found within the result), and a
    name that matches no row gives the empty subset. *)
Theorem client_data_filter :
  forall (data : DataFrame) (selected_client : string),
    Subseq (client_data data selected_client) (rows data) /\
    (forall r, In r (client_data data selected_client) <->
               In r (rows data) /\ clientName r = selected_client) /\
    (forall l, Subseq l (rows data) ->
               (forall r, In r l -> clientName r = selected_client) ->
               Subseq l (client_data data selected_client)) /\
    ((forall r, In r (rows data) -> clientName r <> selected_client) ->
     client_data data selected_client = []).
Proof.
  intros data sel. unfold client_data.
  split; [apply Subseq_filter|].
  split; [intros r; rewrite filter_In, String.eqb_eq; reflexivity|].
  split.
  - induction 1 as [|x l m _ IH|x l m _ IH]; intros Hl; simpl.
    + constructor.
    + rewrite (proj2 (String.eqb_eq _ _) (Hl x (or_introl eq_refl))).
      constructor. apply IH. intros r Hr. apply Hl. right. exact Hr.
    + destruct (String.eqb (clientName x) sel); [constructor|]; apply IH; exact Hl.
  - apply (client_data_no_match data sel).
Qed.

Lemma client_data_filter_witness :
  client_data sample "Alice" = [alice_a; alice_b; alice_c] /\
  client_data sample "Carol" = [].
Proof.
  split; [reflexivity|].
  apply (proj2 (proj2 (proj2 (client_data_filter sample "Carol")))).
  intros r H. simpl in H.
  destruct H as [<-|[<-|[<-|[<-|[<-|[]]]]]]; discriminate.
Defined.






(** ** Required growth *)

Lemma Q2R_inject_Z (z : Z) : Q2R (inject_Z z) = IZR z.
Proof. unfold Q2R, inject_Z. simpl. field. Qed.

Lemma inject_Z_pos (z : Z) : (0 < z)%Z -> 0 < inject_Z z.
Proof. intros H. unfold Qlt. simpl. lia. Qed.

Lemma sidebar_growth_positive (target_increase time_period : Z) (total_investment : Q) :
  (0 < target_increase)%Z -> (0 < time_period)%Z -> 0 < total_investment ->
  sidebar_growth target_increase total_investment time_period =
  Some (Finite ((Rpower (IZR target_increase / Q2R total_investment)
                        (1 / IZR time_period) - 1) * 100)%R).
Proof.
  intros Ht Hy Htot.
  assert (Hy' : 0 < inject_Z time_period) by (apply inject_Z_pos; exact Hy).
  assert (Ht' : 0 < inject_Z target_increase) by (apply inject_Z_pos; exact Ht).
  assert (Hn : ~ total_investment == 0).
  { intros E. rewrite E in Htot. apply (Qlt_irrefl 0). exact Htot. }
  assert (Hyn : ~ inject_Z time_period == 0).
  { intros E. rewrite E in Hy'. apply (Qlt_irrefl 0). exact Hy'. }
  unfold sidebar_growth.
  rewrite (proj2 (Z.ltb_lt _ _) Ht), (proj2 (Z.ltb_lt _ _) Hy). simpl.
  unfold expected_annual_growth, true_divide.
  destruct (Qeq_bool total_investment 0) eqn:E.
  { apply Qeq_bool_iff in E. contradiction. }
  unfold float_power.
  assert (Hexp : (1 / inject_Z time_period ?= 0) = Gt).
  { apply Qgt_alt. apply Qlt_shift_div_l; [exact Hy'|]. rewrite Qmult_0_l. reflexivity. }
  assert (Hbase : (inject_Z target_increase / total_investment ?= 0) = Gt).
  { apply Qgt_alt. apply Qlt_shift_div_l; [exact Htot|]. rewrite Qmult_0_l. exact Ht'. }
  rewrite Hexp, Hbase. simpl.
  rewrite (Q2R_div _ _ Hn), (Q2R_div _ _ Hyn), !Q2R_inject_Z.
  replace (Q2R 1) with 1%R by (unfold Q2R; simpl; field).
  reflexivity.
Qed.

(** With a numpy scalar as total, lines 86-88 are [sidebar_growth]. *)
Lemma required_growth_numpy (target_increase time_period : Z) (x : Q) :
  required_growth target_increase (NumpyScalar x) time_period =
  match sidebar_growth target_increase x time_period with
  | Some v => Shown v
  | None => Skipped
  end.
Proof.
  unfold required_growth, sidebar_growth, expected_annual_growth, python_divide.
  destruct ((0 <? target_increase)%Z && (0 <? time_period)%Z)%bool; reflexivity.
Qed.

(** C1 (as amended).  Line 87 is evaluated exactly when the target increase
    and the number of years are both positive; the total investment is not
    tested.  When either input is not positive the step is skipped: nothing
    is produced and nothing is raised.  When line 87 is evaluated over a
    positive total investment its value is the finite number
    ((target / total) ** (1 / years) - 1) * 100. *)
Theorem required_growth_guard :
  forall (target_increase time_period : Z) (total_investment : sum_value),
    (required_growth target_increase total_investment time_period <> Skipped <->
     (0 < target_increase)%Z /\ (0 < time_period)%Z) /\
    ((target_increase <= 0)%Z \/ (time_period <= 0)%Z ->
     required_growth target_increase total_investment time_period = Skipped) /\
    (forall x,
        (0 < target_increase)%Z -> (0 < time_period)%Z ->
        total_investment = NumpyScalar x -> 0 < x ->
        required_growth target_increase total_investment time_period =
        Shown (Finite ((Rpower (IZR target_increase / Q2R x)
                               (1 / IZR time_period) - 1) * 100)%R)).
Proof.
  intros t y total. split; [|split].
  - unfold required_growth.
    destruct (Z.ltb_spec 0 t) as [Ht|Ht]; destruct (Z.ltb_spec 0 y) as [Hy|Hy]; simpl;
      try (split; [intros H; congruence|intros (H1 & H2); lia]).
    split; [intros _; split; assumption|].
    intros _. destruct (python_divide t total); discriminate.
  - unfold required_growth. intros H.
    destruct (Z.ltb_spec 0 t) as [Ht|Ht]; destruct (Z.ltb_spec 0 y) as [Hy|Hy]; simpl;
      try reflexivity; lia.
  - intros x Ht Hy -> Hx. rewrite required_growth_numpy.
    rewrite (sidebar_growth_positive t y x Ht Hy Hx). reflexivity.
Qed.

Lemma required_growth_guard_witness :
  required_growth 100000 (NumpyScalar 500000) 0 = Skipped /\
  required_growth 100000 (NumpyScalar 500000) 3 =
  Shown (Finite ((Rpower (100000 / Q2R 500000) (1 / 3) - 1) * 100)%R).
Proof.
  split.
  - apply (proj1 (proj2 (required_growth_guard 100000 0 (NumpyScalar 500000)))).
    right. lia.
  - apply (proj2 (proj2 (required_growth_guard 100000 3 (NumpyScalar 500000)))).
    + lia.
    + lia.
    + reflexivity.
    + reflexivity.
Defined.

(** C1, counterexample.  With a total investment of 0, which the claim says
    skips the step, line 87 is evaluated: over the numpy 0 of a numeric
    column its value is infinite, over the Python 0 of a sheet without rows it
    raises; with a negative total the value is NaN. *)
Lemma required_growth_zero_total :
  required_growth 100000 (NumpyScalar 0) 3 = Shown PosInf /\
  required_growth 100000 (NumpyScalar (-500)) 3 = Shown NaN /\
  required_growth 100000 PythonZero 3 = RaisesZeroDivisionError /\
  growth_step header_only "" 100000 3 = RaisesZeroDivisionError.
Proof. repeat split. Qed.

(** The formula on the inputs of the spec's example, a target increase of
    100000 over a total investment of 500000 in 3 years: the base 1/5 is below
    1, so the value is negative. *)
Lemma required_growth_example_negative :
  exists v, sidebar_growth 100000 500000 3 = Some (Finite v) /\ (v < 0)%R.
Proof.
  eexists. split.
  - apply sidebar_growth_positive; [lia|lia|reflexivity].
  - assert (Hq : Q2R 500000 = 500000%R) by (unfold Q2R; simpl; field).
    rewrite Hq.
    assert (Hlt : (Rpower (100000 / 500000) (1 / 3) < 1)%R).
    { assert (Hln : (ln (100000 / 500000) < 0)%R).
      { rewrite <- ln_1. apply ln_increasing; lra. }
      unfold Rpower. set (z := ln (100000 / 500000)) in *.
      assert (Hexp : (exp (1 / 3 * z) < exp 0)%R) by (apply exp_increasing; lra).
      rewrite exp_0 in Hexp. exact Hexp. }
    lra.
Qed.

(** ** At-risk rows *)

Lemma at_risk_rows_In (client_data : list HoldingRecord) (out : list AtRiskRow) (r : AtRiskRow) :
  df_protip_data client_data out ->
  (In r out <->
   exists h, In h client_data /\ marketValue h < investmentAmount h /\ r = at_risk_select h).
Proof.
  intros [Hperm _]. split.
  - intros Hr. apply (Permutation_in _ (Permutation_sym Hperm)) in Hr.
    apply in_map_iff in Hr. destruct Hr as [h [E Hh]].
    apply filter_In in Hh. destruct Hh as [Hh Hw].
    exists h. split; [exact Hh|]. split; [apply Qlt_bool_iff; exact Hw|].
    symmetry. exact E.
  - intros [h [Hh [Hlt ->]]]. apply (Permutation_in _ Hperm).
    apply in_map. apply filter_In. split; [exact Hh|].
    apply Qlt_bool_iff. exact Hlt.
Qed.

Lemma at_risk_where_true (r : HoldingRecord) (inv mv : Q) :
  investmentAmount r == inv -> marketValue r == mv -> mv < inv ->
  at_risk_where r = true.
Proof.
  intros Hi Hm H. apply Qlt_bool_iff. rewrite Hi, Hm. exact H.
Qed.

Lemma at_risk_where_false (r : HoldingRecord) (inv mv : Q) :
  investmentAmount r == inv -> marketValue r == mv -> inv <= mv ->
  at_risk_where r = false.
Proof.
  intros Hi Hm H. destruct (at_risk_where r) eqn:E; [|reflexivity].
  apply Qlt_bool_iff in E. rewrite Hi, Hm in E.
  exfalso. apply (Qlt_not_le _ _ E). exact H.
Qed.

(** C5 (as amended).  The at-risk result holds exactly the rows of the subset
    whose Market Value is below the Investment Amount, with the eight
    selected columns; the Gain/Loss of each is Market Value minus Investment
    Amount whatever the sheet's own column holds; the rows are in ascending
    order of that Gain/Loss.  The order of rows with equal Gain/Loss is not
    fixed by the query: the stable order is one of the admitted results, and
    it is the only one when rows with equal Gain/Loss are identical.  On
    (100, 90), (50, 60), (200, 150) the result is the third row, gain -50,
    then the first, gain -10. *)
Theorem at_risk_query :
  (forall (client_data : list HoldingRecord) (out : list AtRiskRow),
      df_protip_data client_data out ->
      Permutation (map at_risk_select (filter at_risk_where client_data)) out /\
      (forall r, In r out <->
                 exists h, In h client_data /\
                           marketValue h < investmentAmount h /\
                           r = at_risk_select h) /\
      (forall r, In r out -> ar_gainLoss r == ar_marketValue r - ar_investmentAmount r) /\
      StronglySorted (ascending ar_gainLoss) out /\
      ((forall r s, In r out -> In s out -> ar_gainLoss r == ar_gainLoss s -> r = s) ->
       out = computeAtRisk client_data)) /\
  (forall client_data, df_protip_data client_data (computeAtRisk client_data)) /\
  (forall r1 r2 r3 out,
      investmentAmount r1 == 100 -> marketValue r1 == 90 ->
      investmentAmount r2 == 50 -> marketValue r2 == 60 ->
      investmentAmount r3 == 200 -> marketValue r3 == 150 ->
      df_protip_data [r1; r2; r3] out ->
      out = [at_risk_select r3; at_risk_select r1] /\
      ar_gainLoss (at_risk_select r3) == -50 /\
      ar_gainLoss (at_risk_select r1) == -10).
Proof.
  split; [|split].
  - intros cd out H. split; [exact (proj1 H)|].
    split; [intros r; apply at_risk_rows_In; exact H|].
    split; [|split; [exact (proj2 H)|]].
    + intros r Hr. apply (at_risk_rows_In cd out r H) in Hr.
      destruct Hr as [h [_ [_ ->]]]. simpl. reflexivity.
    + intros Hinj.
      apply (order_by_asc_unique _ ar_gainLoss
               (map at_risk_select (filter at_risk_where cd)));
        [exact Hinj|exact H|apply sort_asc_order_by].
  - intros cd. apply sort_asc_order_by.
  - intros r1 r2 r3 out Hi1 Hm1 Hi2 Hm2 Hi3 Hm3 [Hperm Hsort].
    assert (G1 : ar_gainLoss (at_risk_select r1) == -10)
      by (simpl; rewrite Hi1, Hm1; reflexivity).
    assert (G3 : ar_gainLoss (at_risk_select r3) == -50)
      by (simpl; rewrite Hi3, Hm3; reflexivity).
    split; [|split; assumption].
    simpl in Hperm.
    rewrite (at_risk_where_true r1 _ _ Hi1 Hm1) in Hperm by reflexivity.
    rewrite (at_risk_where_false r2 _ _ Hi2 Hm2) in Hperm by discriminate.
    rewrite (at_risk_where_true r3 _ _ Hi3 Hm3) in Hperm by reflexivity.
    simpl in Hperm. apply Permutation_length_2_inv in Hperm.
    destruct Hperm as [->| ->]; [exfalso|reflexivity].
    inversion Hsort as [|? ? _ Hall]. inversion Hall as [|? ? Hle _]. subst.
    unfold ascending in Hle. rewrite G1, G3 in Hle.
    revert Hle. apply Qlt_not_le. reflexivity.
Qed.

Lemma at_risk_query_witness :
  df_protip_data [alice_a; alice_b; alice_c] (computeAtRisk [alice_a; alice_b; alice_c]) /\
  computeAtRisk [alice_a; alice_b; alice_c] =
    [at_risk_select alice_c; at_risk_select alice_a] /\
  ar_gainLoss (at_risk_select alice_c) == -50 /\
  ar_gainLoss (at_risk_select alice_a) == -10.
Proof.
  split.
  - apply (proj1 (proj2 at_risk_query)).
  - apply (proj2 (proj2 at_risk_query) alice_a alice_b alice_c); try reflexivity.
    apply (proj1 (proj2 at_risk_query)).
Defined.

(** C10.  Every row of the at-risk table of a rendered page carries the
    selected client's name, has a Market Value strictly below its Investment
    Amount, and shows a Gain/Loss that is strictly negative and equal to
    Market Value minus Investment Amount. *)
Theorem at_risk_row_invariant :
  forall (data : DataFrame) (selected_client : string) (target_increase time_period : Z)
         (d : Dashboard) (r : AtRiskRow),
    script data selected_client target_increase time_period (Rendered d) ->
    In r (d_at_risk d) ->
    ar_clientName r = selected_client /\
    ar_marketValue r < ar_investmentAmount r /\
    ar_gainLoss r < 0 /\
    ar_gainLoss r == ar_marketValue r - ar_investmentAmount r.
Proof.
  intros data sel t y d r Hrun Hr.
  inversion Hrun as [| |at_risk sectors top _ _ cd Hq _ _ Hd]. subst d. simpl in Hr.
  apply (at_risk_rows_In cd at_risk r Hq) in Hr.
  destruct Hr as [h [Hh [Hlt ->]]]. simpl.
  split.
  - unfold cd, client_data in Hh. apply filter_In in Hh.
    apply String.eqb_eq. exact (proj2 Hh).
  - split; [exact Hlt|]. split; [|reflexivity].
    apply (Qplus_lt_l _ _ (investmentAmount h)). ring_simplify. exact Hlt.
Qed.

Lemma at_risk_row_invariant_witness :
  ar_clientName (at_risk_select alice_c) = "Alice" /\
  ar_marketValue (at_risk_select alice_c) < ar_investmentAmount (at_risk_select alice_c) /\
  ar_gainLoss (at_risk_select alice_c) < 0 /\
  ar_gainLoss (at_risk_select alice_c) ==
    ar_marketValue (at_risk_select alice_c) - ar_investmentAmount (at_risk_select alice_c).
Proof.
  apply (at_risk_row_invariant sample "Alice" 100000 3
           (reference_dashboard sample "Alice" 100000 3)).
  - apply script_reference_run; [reflexivity|discriminate].
  - left. reflexivity.
Defined.

Lemma constant_key_sorted (A : Type) (key : A -> Q) (c : Q) (l : list A) :
  (forall a, In a l -> key a == c) -> StronglySorted (ascending key) l.
Proof.
  induction l as [|x t IH]; intros H.
  - constructor.
  - constructor.
    + apply IH. intros a Ha. apply H. right. exact Ha.
    + apply Forall_forall. intros a Ha. unfold ascending.
      rewrite (H x (or_introl eq_refl)), (H a (or_intror Ha)). apply Qle_refl.
Qed.

(** C5, counterexample.  Twenty-five at-risk rows with the same Gain/Loss of
    -10, products A to Y in the order of the sheet: the stable order of the
    claim is A to Y, and the query also admits other orders, such as Y to
    A. *)
Lemma at_risk_tie_order :
  map ar_productName (computeAtRisk tied_rows) = map productName tied_rows /\
  exists out,
    df_protip_data tied_rows out /\
    map ar_productName out <> map productName tied_rows.
Proof.
  split; [reflexivity|].
  exists (rev (map at_risk_select (filter at_risk_where tied_rows))).
  split.
  - split.
    + apply Permutation_rev.
    + apply (constant_key_sorted _ ar_gainLoss (-10)).
      intros a Ha. apply in_rev in Ha. apply in_map_iff in Ha.
      destruct Ha as [h [<- Hh]]. apply filter_In in Hh. destruct Hh as [Hh _].
      unfold tied_rows in Hh. apply in_map_iff in Hh. destruct Hh as [n [<- _]].
      reflexivity.
  - discriminate.
Qed.

(** ** Sector summary *)

Lemma sigma_map_ext (A : Type) (f g : A -> Q) (l : list A) :
  (forall x, f x == g x) -> sigma (map f l) == sigma (map g l).
Proof.
  intros H. induction l as [|x t IH]; simpl.
  - reflexivity.
  - rewrite IH, H. reflexivity.
Qed.

Lemma sector_groups_sectors (client_data : list HoldingRecord) :
  map sa_sector (sector_groups client_data) = distinct (map sector client_data).
Proof.
  unfold sector_groups. rewrite map_map. simpl. apply map_id.
Qed.

Lemma sector_groups_In (client_data : list HoldingRecord) (g : SectorAggregate) :
  In g (sector_groups client_data) ->
  exists k, g = sector_aggregate client_data k /\ In k (map sector client_data).
Proof.
  unfold sector_groups. intros H. apply in_map_iff in H.
  destruct H as [k [<- Hk]]. exists k. split; [reflexivity|].
  apply distinct_In. exact Hk.
Qed.

Lemma sector_aggregate_net (client_data : list HoldingRecord) (k : string) :
  netGainLoss (sector_aggregate client_data k) ==
  totalMarketValue (sector_aggregate client_data k) -
  totalInvested (sector_aggregate client_data k).
Proof.
  simpl. rewrite !sum_sigma. apply sigma_map_minus.
Qed.

(** C6 (as amended).  The sector summary has one aggregate for each sector of
    the subset; its totals are the sums of Investment Amount and of Market
    Value over the rows of the sector; its net is the sum over those rows of
    Market Value minus Investment Amount, not the difference of the two
    totals; the two agree when the amounts are integers small enough to be
    exact.  The aggregates are in descending order of the net.  The order of
    sectors with equal net is not fixed by the query: the result is
    determined when no two sectors have an equal net; a result always
    exists.  Two Tech rows (100, 150) and (50, 40) give the single aggregate
    Tech, 150, 190, 40. *)
Theorem sector_summary_query :
  (forall (client_data : list HoldingRecord) (out : list SectorAggregate),
      sector_data client_data out ->
      StronglySorted (descending netGainLoss) out /\
      NoDup (map sa_sector out) /\
      (forall k, In k (map sa_sector out) <-> In k (map sector client_data)) /\
      (forall g, In g out ->
         totalInvested g ==
           sigma (map investmentAmount (sector_rows (sa_sector g) client_data)) /\
         totalMarketValue g ==
           sigma (map marketValue (sector_rows (sa_sector g) client_data)) /\
         netGainLoss g ==
           sigma (map (fun r => marketValue r - investmentAmount r)
                      (sector_rows (sa_sector g) client_data))) /\
      (small_integer_amounts client_data ->
       forall g, In g out -> netGainLoss g == totalMarketValue g - totalInvested g) /\
      ((forall g h, In g out -> In h out -> netGainLoss g == netGainLoss h -> g = h) ->
       out = sort_desc netGainLoss (sector_groups client_data))) /\
  (forall client_data,
      sector_data client_data (sort_desc netGainLoss (sector_groups client_data))) /\
  (forall r1 r2 out,
      sector r1 = "Tech" -> sector r2 = "Tech" ->
      investmentAmount r1 == 100 -> marketValue r1 == 150 ->
      investmentAmount r2 == 50 -> marketValue r2 == 40 ->
      sector_data [r1; r2] out ->
      exists g, out = [g] /\ sa_sector g = "Tech" /\
                totalInvested g == 150 /\ totalMarketValue g == 190 /\
                netGainLoss g == 40).
Proof.
  split; [|split].
  - intros cd out [Hperm Hsort].
    split; [exact Hsort|].
    assert (Hnames : Permutation (distinct (map sector cd)) (map sa_sector out)).
    { rewrite <- sector_groups_sectors. apply Permutation_map. exact Hperm. }
    split; [eapply Permutation_NoDup; [exact Hnames|apply distinct_NoDup]|].
    split; [|split; [|split]].
    + intros k. rewrite <- (distinct_In k (map sector cd)). split; intros H.
      * apply (Permutation_in _ (Permutation_sym Hnames)). exact H.
      * apply (Permutation_in _ Hnames). exact H.
    + intros g Hg. apply (Permutation_in _ (Permutation_sym Hperm)) in Hg.
      apply sector_groups_In in Hg. destruct Hg as [k [-> _]].
      split; [apply sum_sigma|]. split; apply sum_sigma.
    + intros _ g Hg. apply (Permutation_in _ (Permutation_sym Hperm)) in Hg.
      apply sector_groups_In in Hg. destruct Hg as [k [-> _]].
      apply sector_aggregate_net.
    + intros Hinj.
      apply (order_by_desc_unique _ netGainLoss (sector_groups cd) out
               (sort_desc netGainLoss (sector_groups cd)) Hinj
               (conj Hperm Hsort) (sort_desc_order_by _ _ _)).
  - intros cd. apply sort_desc_order_by.
  - intros r1 r2 out S1 S2 Hi1 Hm1 Hi2 Hm2 [Hperm _].
    unfold sector_groups in Hperm. simpl in Hperm.
    rewrite S1, S2 in Hperm. simpl in Hperm.
    apply Permutation_length_1_inv in Hperm. subst out.
    eexists. split; [reflexivity|].
    unfold sector_aggregate, sector_rows, sum. simpl. rewrite S1, S2. simpl.
    rewrite Hi1, Hm1, Hi2, Hm2.
    repeat split; reflexivity.
Qed.

Lemma sector_summary_query_witness :
  sector_data [tech_a; tech_b] (sort_desc netGainLoss (sector_groups [tech_a; tech_b])) /\
  exists g, sort_desc netGainLoss (sector_groups [tech_a; tech_b]) = [g] /\
            sa_sector g = "Tech" /\
            totalInvested g == 150 /\ totalMarketValue g == 190 /\
            netGainLoss g == 40.
Proof.
  split.
  - apply (proj1 (proj2 sector_summary_query)).
  - apply (proj2 (proj2 sector_summary_query) tech_a tech_b); try reflexivity.
    apply (proj1 (proj2 sector_summary_query)).
Defined.

(** C6, counterexample.  Tech is seen first and Energy second, both with a
    net of -10: the order of the claim is Tech then Energy, and the query also
    admits Energy then Tech. *)
Lemma sector_tie_order :
  map sa_sector (computeSectorSummary [tie_a; tie_b]) = ["Tech"; "Energy"] /\
  exists out,
    sector_data [tie_a; tie_b] out /\
    map sa_sector out = ["Energy"; "Tech"].
Proof.
  split; [reflexivity|].
  exists [sector_aggregate [tie_a; tie_b] "Energy"; sector_aggregate [tie_a; tie_b] "Tech"].
  split; [|reflexivity].
  split.
  - apply perm_swap.
  - repeat constructor; unfold descending, Qle; simpl; lia.
Qed.

Lemma sector_groups_sums (client_data : list HoldingRecord) (out : list SectorAggregate) :
  sector_data client_data out ->
  sigma (map totalInvested out) == sigma (map investmentAmount client_data) /\
  sigma (map totalMarketValue out) == sigma (map marketValue client_data) /\
  sigma (map netGainLoss out) ==
    sigma (map marketValue client_data) - sigma (map investmentAmount client_data).
Proof.
  intros [Hperm _].
  assert (Hsum : forall (col : SectorAggregate -> Q) (f : HoldingRecord -> Q),
             (forall k, col (sector_aggregate client_data k) =
                        sum (map f (sector_rows k client_data))) ->
             sigma (map col out) == sigma (map f client_data)).
  { intros col f Hcol.
    rewrite <- (sigma_map_Permutation _ col _ _ Hperm).
    unfold sector_groups. rewrite map_map.
    rewrite (sigma_map_ext _ _ (group_sum sector f client_data)).
    - apply sigma_group_sums.
    - intros k. rewrite Hcol. apply sum_sigma. }
  split; [apply Hsum; intros k; reflexivity|].
  split; [apply Hsum; intros k; reflexivity|].
  rewrite (Hsum netGainLoss (fun r => marketValue r - investmentAmount r)
                (fun k => eq_refl)).
  apply sigma_map_minus.
Qed.

(** C9 (as amended).  For a client subset whose amounts are integers with
    absolute values adding up to less than 2^53 in all, the sector summary
    partitions the KPI totals: over the aggregates of any result of the
    sector query, the invested totals add up to the total investment, the
    market values to the total market value, and the nets to the net gain or
    loss. *)
Theorem sector_summary_partition :
  forall (dt_inv dt_mv : dtype) (client_data : list HoldingRecord)
         (out : list SectorAggregate),
    sector_data client_data out ->
    small_integer_amounts client_data ->
    sigma (map totalInvested out) == total_investment dt_inv client_data /\
    sigma (map totalMarketValue out) == total_market_value dt_mv client_data /\
    sigma (map netGainLoss out) == net_gain_loss dt_mv dt_inv client_data.
Proof.
  intros dt_inv dt_mv cd out Hq Hsmall.
  destruct (sector_groups_sums cd out Hq) as (S1 & S2 & S3).
  destruct (kpi_totals_exact dt_inv dt_mv cd Hsmall) as (E1 & E2 & E3).
  rewrite S1, S2, S3, E1, E2, E3. repeat split; reflexivity.
Qed.

Lemma alice_small_integer_amounts : small_integer_amounts [alice_a; alice_b; alice_c].
Proof.
  split; [|split].
  - intros x [<-|[<-|[<-|[]]]]; reflexivity.
  - intros x [<-|[<-|[<-|[]]]]; reflexivity.
  - reflexivity.
Qed.

Lemma sector_summary_partition_witness :
  sigma (map totalInvested (sort_desc netGainLoss (sector_groups [alice_a; alice_b; alice_c])))
    == total_investment dtype_int64 [alice_a; alice_b; alice_c] /\
  sigma (map totalMarketValue (sort_desc netGainLoss (sector_groups [alice_a; alice_b; alice_c])))
    == total_market_value dtype_int64 [alice_a; alice_b; alice_c] /\
  sigma (map netGainLoss (sort_desc netGainLoss (sector_groups [alice_a; alice_b; alice_c])))
    == net_gain_loss dtype_int64 dtype_int64 [alice_a; alice_b; alice_c].
Proof.
  apply (sector_summary_partition dtype_int64 dtype_int64 [alice_a; alice_b; alice_c]).
  - apply sort_desc_order_by.
  - apply alice_small_integer_amounts.
Defined.

(** C9, counterexample.  Two holdings of 2^62 each, both in sector Tech, in
    an integer sheet: the one sector aggregate has a total invested of 2^63,
    and the Total Investment shown is -2^63. *)
Lemma sector_total_exceeds_kpi :
  investment_dtype big_sheet = dtype_int64 /\
  sector_data (client_data big_sheet "Eve")
    [sector_aggregate (client_data big_sheet "Eve") "Tech"] /\
  sigma (map totalInvested [sector_aggregate (client_data big_sheet "Eve") "Tech"])
    == 9223372036854775808 /\
  k_total_investment (kpi_panel big_sheet "Eve") == - 9223372036854775808.
Proof.
  split; [reflexivity|]. split; [|split; reflexivity].
  split.
  - apply Permutation_refl.
  - repeat constructor.
Qed.

(** ** Top holdings *)

Lemma StronglySorted_app (A : Type) (R : A -> A -> Prop) (l1 l2 : list A) :
  StronglySorted R (l1 ++ l2) ->
  StronglySorted R l1 /\ (forall a b, In a l1 -> In b l2 -> R a b).
Proof.
  induction l1 as [|x t IH]; simpl; intros H.
  - split; [constructor|]. intros a b [].
  - inversion H as [|? ? Ht Hx]. subst.
    destruct (IH Ht) as [IH1 IH2]. split.
    + constructor; [exact IH1|].
      apply Forall_forall. intros y Hy.
      apply (proj1 (Forall_forall _ _) Hx). apply in_or_app. left. exact Hy.
    + intros a b [<-|Ha] Hb.
      * apply (proj1 (Forall_forall _ _) Hx). apply in_or_app. right. exact Hb.
      * apply IH2; assumption.
Qed.

Lemma product_groups_names (client_data : list HoldingRecord) :
  map ha_productName (product_groups client_data) = distinct (map productName client_data).
Proof.
  unfold product_groups. rewrite map_map. simpl. apply map_id.
Qed.

Lemma product_groups_In (client_data : list HoldingRecord) (g : HoldingAggregate) :
  In g (product_groups client_data) <->
  exists k, g = product_aggregate client_data k /\ In k (map productName client_data).
Proof.
  unfold product_groups. rewrite in_map_iff. split.
  - intros [k [<- Hk]]. exists k. split; [reflexivity|]. apply distinct_In. exact Hk.
  - intros [k [-> Hk]]. exists k. split; [reflexivity|]. apply distinct_In. exact Hk.
Qed.

(** C7.  The top-holdings result has one entry for a product, with the sum of
    Investment Amount over the product's rows; the entries are in descending
    order of that sum; there are min(5, number of distinct products) of them;
    a product left out has a sum no larger than any entry; with at most five
    distinct products every product is returned and nothing else.  A result
    always exists. *)
Theorem top_holdings_query :
  (forall (client_data : list HoldingRecord) (out : list HoldingAggregate),
      top_holdings_data client_data out ->
      List.length out = Nat.min 5 (List.length (distinct (map productName client_data))) /\
      StronglySorted (descending ha_totalInvested) out /\
      NoDup (map ha_productName out) /\
      (forall g, In g out ->
         In (ha_productName g) (map productName client_data) /\
         ha_totalInvested g ==
           sigma (map investmentAmount (product_rows (ha_productName g) client_data))) /\
      (forall k, In k (map productName client_data) ->
         In k (map ha_productName out) \/
         forall g, In g out ->
                   sigma (map investmentAmount (product_rows k client_data)) <=
                   ha_totalInvested g) /\
      ((List.length (distinct (map productName client_data)) <= 5)%nat ->
       Permutation (product_groups client_data) out)) /\
  (forall client_data,
      top_holdings_data client_data
        (firstn 5 (sort_desc ha_totalInvested (product_groups client_data)))).
Proof.
  split.
  - intros cd out [sorted [[Hperm Hsort] ->]].
    assert (Hlen : List.length sorted = List.length (distinct (map productName cd))).
    { rewrite <- (Permutation_length Hperm), <- product_groups_names.
      symmetry. apply length_map. }
    assert (Hsplit : sorted = (firstn 5 sorted ++ skipn 5 sorted)%list)
      by (symmetry; apply firstn_skipn).
    assert (Hsort' : StronglySorted (descending ha_totalInvested)
                       (firstn 5 sorted ++ skipn 5 sorted)%list)
      by (rewrite <- Hsplit; exact Hsort).
    apply StronglySorted_app in Hsort'. destruct Hsort' as [Hpre Hcross].
    assert (Hsub : forall g, In g (firstn 5 sorted) -> In g (product_groups cd)).
    { intros g Hg. apply (Permutation_in _ (Permutation_sym Hperm)).
      rewrite Hsplit. apply in_or_app. left. exact Hg. }
    split; [rewrite length_firstn, Hlen; reflexivity|].
    split; [exact Hpre|].
    split.
    { assert (Hnd : NoDup (map ha_productName sorted)).
      { eapply Permutation_NoDup; [apply Permutation_map; exact Hperm|].
        rewrite product_groups_names. apply distinct_NoDup. }
      rewrite Hsplit, map_app in Hnd.
      apply NoDup_app_remove_r in Hnd. exact Hnd. }
    split.
    { intros g Hg. apply Hsub in Hg. apply product_groups_In in Hg.
      destruct Hg as [k [-> Hk]]. simpl. split; [exact Hk|apply sum_sigma]. }
    split.
    { intros k Hk.
      assert (Hin : In (product_aggregate cd k) sorted).
      { apply (Permutation_in _ Hperm). apply product_groups_In.
        exists k. split; [reflexivity|exact Hk]. }
      rewrite Hsplit in Hin. apply in_app_or in Hin. destruct Hin as [Hin|Hin].
      - left. apply (in_map ha_productName) in Hin. exact Hin.
      - right. intros g Hg. rewrite <- sum_sigma.
        exact (Hcross g (product_aggregate cd k) Hg Hin). }
    intros Hfew. rewrite firstn_all2; [exact Hperm|].
    rewrite Hlen. exact Hfew.
  - intros cd. eexists. split; [apply sort_desc_order_by|reflexivity].
Qed.

Lemma top_holdings_query_witness :
  top_holdings_data [alice_a; alice_b; alice_c]
    (firstn 5 (sort_desc ha_totalInvested (product_groups [alice_a; alice_b; alice_c]))) /\
  map ha_productName
    (firstn 5 (sort_desc ha_totalInvested (product_groups [alice_a; alice_b; alice_c])))
    = ["Fund C"; "Fund A"; "Fund B"] /\
  List.length
    (firstn 5 (sort_desc ha_totalInvested (product_groups [alice_a; alice_b; alice_c])))
    = Nat.min 5 3.
Proof.
  split; [apply (proj2 top_holdings_query)|].
  split; [reflexivity|].
  apply (proj1 (proj1 top_holdings_query [alice_a; alice_b; alice_c] _
                  (proj2 top_holdings_query _))).
Defined.

(** ** Empty selection *)

Lemma script_shown_kpis (data : DataFrame) (selected_client : string)
    (target_increase time_period : Z) (page : Page) (k : KpiPanel) :
  script data selected_client target_increase time_period page ->
  shown_kpis page = Some k ->
  k = kpi_panel data selected_client.
Proof.
  intros Hrun Hk.
  inversion Hrun as [Hm|Hm Hg Hp|at_risk sectors top Hm Hg cd Hq Hs Ht Hp];
    subst page; simpl in Hk; congruence.
Qed.

Lemma script_empty_selection (data : DataFrame) (selected_client : string)
    (target_increase time_period : Z) (page : Page) (k : KpiPanel) :
  (forall r, In r (rows data) -> clientName r <> selected_client) ->
  script data selected_client target_increase time_period page ->
  shown_kpis page = Some k ->
  k_client_data k = [] /\
  k_total_investment k == 0 /\
  k_total_market_value k == 0 /\
  k_net_gain_loss k == 0 /\
  k_annual_growth_required k = NaN /\
  k_actual_annual_growth k = NaN.
Proof.
  intros Hno Hrun Hk.
  rewrite (script_shown_kpis _ _ _ _ _ _ Hrun Hk).
  unfold kpi_panel. simpl.
  rewrite (client_data_no_match data selected_client Hno).
  destruct (investment_dtype data), (market_value_dtype data);
    repeat split; reflexivity.
Qed.

(** C8 (as amended).  When the selected client matches no row, the KPI
    section shows both sums and the net as 0 and both means as NaN, the value
    pandas gives for the mean of an empty column: there is no separate
    "no data" marker.  Every frame that passes the header check gets as far
    as showing the KPI section. *)
Theorem empty_selection :
  (forall (data : DataFrame) (selected_client : string) (target_increase time_period : Z),
      missing_columns data = [] ->
      exists page k,
        script data selected_client target_increase time_period page /\
        shown_kpis page = Some k) /\
  (forall (data : DataFrame) (selected_client : string) (target_increase time_period : Z)
          (page : Page) (k : KpiPanel),
      (forall r, In r (rows data) -> clientName r <> selected_client) ->
      script data selected_client target_increase time_period page ->
      shown_kpis page = Some k ->
      k_client_data k = [] /\
      k_total_investment k == 0 /\
      k_total_market_value k == 0 /\
      k_net_gain_loss k == 0 /\
      k_annual_growth_required k = NaN /\
      k_actual_annual_growth k = NaN).
Proof.
  split.
  - intros data sel t y Hm.
    destruct (growth_step_dec data sel t y) as [Hg|Hg].
    + eexists. eexists. split; [apply script_zero_division; assumption|reflexivity].
    + eexists. eexists. split; [apply script_reference_run; assumption|reflexivity].
  - apply script_empty_selection.
Qed.

Lemma empty_selection_witness :
  k_total_investment (kpi_panel header_only "") == 0 /\
  k_annual_growth_required (kpi_panel header_only "") = NaN.
Proof.
  destruct (proj2 empty_selection header_only "" 100000%Z 3%Z
              (ZeroDivisionError (kpi_panel header_only ""))
              (kpi_panel header_only "")
              (fun r (H : In r (rows header_only)) => False_ind _ H)
              (script_zero_division header_only "" 100000 3 eq_refl eq_refl)
              eq_refl)
    as (_ & H1 & _ & _ & H2 & _).
  split; [exact H1|exact H2].
Defined.

(** C8, counterexample.  A sheet that has the header row only: the select
    box has no option and no row is selected.  With the default sidebar
    inputs the one outcome of the script is the [ZeroDivisionError] of line
    87, raised after the KPI section showed both means as NaN. *)
Lemma empty_selection_nan :
  script header_only "" 100000 3 (ZeroDivisionError (kpi_panel header_only "")) /\
  (forall page, script header_only "" 100000 3 page ->
                page = ZeroDivisionError (kpi_panel header_only "")) /\
  k_annual_growth_required (kpi_panel header_only "") = NaN /\
  k_actual_annual_growth (kpi_panel header_only "") = NaN.
Proof.
  split; [apply script_zero_division; reflexivity|].
  split; [|split; reflexivity].
  intros page H. inversion H as [Hm|Hm Hg Hp|at_risk sectors top Hm Hg cd Hq Hs Ht Hp].
  - exfalso. apply Hm. reflexivity.
  - reflexivity.
  - exfalso. apply Hg. reflexivity.
Qed.

(** * Further properties of the script *)

(** ** Client list and selection *)

(** X3.  Selecting within a selection: the same name returns the subset
    unchanged, a different name returns no row. *)
Theorem client_data_twice :
  forall (data : DataFrame) (a b : string),
    client_data {| columns := columns data; rows := client_data data a |} b =
    if String.eqb a b then client_data data a else [].
Proof.
  intros data a b. unfold client_data. simpl.
  induction (rows data) as [|r t IH]; simpl.
  - destruct (String.eqb a b); reflexivity.
  - destruct (String.eqb_spec (clientName r) a) as [E|E]; simpl.
    + rewrite IH, E. destruct (String.eqb a b); reflexivity.
    + exact IH.
Qed.

(** ** At-risk rows and the totals *)

Lemma sigma_nonneg (l : list Q) : (forall x, In x l -> 0 <= x) -> 0 <= sigma l.
Proof.
  induction l as [|x t IH]; simpl; intros H.
  - apply Qle_refl.
  - assert (Hx : 0 <= x) by (apply H; left; reflexivity).
    assert (Ht : 0 <= sigma t) by (apply IH; intros y Hy; apply H; right; exact Hy).
    Lqa.lra.
Qed.

Lemma sigma_neg_exists (l : list Q) : sigma l < 0 -> exists x, In x l /\ x < 0.
Proof.
  induction l as [|x t IH]; simpl; intros H.
  - exfalso. apply (Qlt_irrefl 0). exact H.
  - destruct (Qlt_le_dec x 0) as [Hx|Hx].
    + exists x. split; [left; reflexivity|exact Hx].
    + destruct IH as [y [Hy Hlt]]; [Lqa.lra|].
      exists y. split; [right; exact Hy|exact Hlt].
Qed.

Lemma at_risk_where_gain (r : HoldingRecord) :
  at_risk_where r = true <-> marketValue r - investmentAmount r < 0.
Proof.
  unfold at_risk_where. rewrite Qlt_bool_iff. split; intros H; Lqa.lra.
Qed.

Lemma at_risk_gains (l : list HoldingRecord) :
  map ar_gainLoss (map at_risk_select l) =
  map (fun r => marketValue r - investmentAmount r) l.
Proof. rewrite map_map. reflexivity. Qed.

Lemma at_risk_gain_sum (client_data : list HoldingRecord) :
  sigma (map (fun r => marketValue r - investmentAmount r)
             (filter at_risk_where client_data)) <=
    sigma (map (fun r => marketValue r - investmentAmount r) client_data) /\
  sigma (map (fun r => marketValue r - investmentAmount r)
             (filter at_risk_where client_data)) <= 0.
Proof.
  induction client_data as [|r t [IH1 IH2]]; simpl.
  - split; apply Qle_refl.
  - destruct (at_risk_where r) eqn:E; simpl.
    + apply at_risk_where_gain in E. split; Lqa.lra.
    + assert (Hr : ~ marketValue r - investmentAmount r < 0).
      { intros H. apply at_risk_where_gain in H. congruence. }
      split; Lqa.lra.
Qed.

(** X4.  For a client subset whose amounts are integers with absolute
    values adding up to less than 2^53 in all, the Gain/Loss values of the
    at-risk table add up to at most 0 and to at most the Net Gain/Loss
    indicator; a negative Net Gain/Loss comes with a non-empty at-risk
    table. *)
Theorem at_risk_bounds_net :
  forall (dt_mv dt_inv : dtype) (client_data : list HoldingRecord) (out : list AtRiskRow),
    df_protip_data client_data out ->
    small_integer_amounts client_data ->
    sigma (map ar_gainLoss out) <= 0 /\
    sigma (map ar_gainLoss out) <= net_gain_loss dt_mv dt_inv client_data /\
    (net_gain_loss dt_mv dt_inv client_data < 0 -> out <> []).
Proof.
  intros dt_mv dt_inv cd out [Hperm _] Hsmall.
  assert (Hout : sigma (map ar_gainLoss out) ==
                 sigma (map (fun r => marketValue r - investmentAmount r)
                            (filter at_risk_where cd))).
  { rewrite <- (sigma_map_Permutation _ ar_gainLoss _ _ Hperm).
    rewrite at_risk_gains. reflexivity. }
  assert (Hnet : net_gain_loss dt_mv dt_inv cd ==
                 sigma (map (fun r => marketValue r - investmentAmount r) cd)).
  { destruct (kpi_totals_exact dt_inv dt_mv cd Hsmall) as (_ & _ & E).
    rewrite E. symmetry. apply sigma_map_minus. }
  destruct (at_risk_gain_sum cd) as [H1 H2].
  split; [rewrite Hout; exact H2|].
  split; [rewrite Hout, Hnet; exact H1|].
  intros Hneg E. subst out. simpl in Hout.
  rewrite Hnet in Hneg. rewrite <- Hout in H1. Lqa.lra.
Qed.

Lemma at_risk_bounds_net_witness :
  sigma (map ar_gainLoss (computeAtRisk [alice_a; alice_b; alice_c])) <= 0 /\
  sigma (map ar_gainLoss (computeAtRisk [alice_a; alice_b; alice_c])) <=
    net_gain_loss dtype_int64 dtype_int64 [alice_a; alice_b; alice_c] /\
  (net_gain_loss dtype_int64 dtype_int64 [alice_a; alice_b; alice_c] < 0 ->
   computeAtRisk [alice_a; alice_b; alice_c] <> []).
Proof.
  apply (at_risk_bounds_net dtype_int64 dtype_int64 [alice_a; alice_b; alice_c]).
  - apply sort_asc_order_by.
  - apply alice_small_integer_amounts.
Defined.

(** X5.  The at-risk query reads neither the sheet's Gain/Loss column nor
    the two growth columns: subsets that agree row by row on the other seven
    columns have the same at-risk results. *)
Theorem at_risk_ignores_columns :
  forall (client_data client_data' : list HoldingRecord),
    Forall2 at_risk_columns_agree client_data client_data' ->
    forall out, df_protip_data client_data out <-> df_protip_data client_data' out.
Proof.
  intros cd cd' H.
  assert (E : map at_risk_select (filter at_risk_where cd) =
              map at_risk_select (filter at_risk_where cd')).
  { induction H as [|r r' t t' Hr _ IH]; simpl; [reflexivity|].
    destruct Hr as (E1 & E2 & E3 & E4 & E5 & E6 & E7).
    assert (Hw : at_risk_where r = at_risk_where r')
      by (unfold at_risk_where; rewrite E4, E5; reflexivity).
    assert (Hs : at_risk_select r = at_risk_select r')
      by (unfold at_risk_select; rewrite E1, E2, E3, E4, E5, E6, E7; reflexivity).
    rewrite Hw. destruct (at_risk_where r'); simpl; rewrite ?Hs, IH; reflexivity. }
  intros out. unfold df_protip_data. rewrite E. reflexivity.
Qed.

Lemma at_risk_ignores_columns_witness :
  df_protip_data [alice_a] [at_risk_select alice_a] <->
  df_protip_data [mkHolding "C001" "Alice" "Fund A" 100 90 25 "Tech" "High" 1 2]
                 [at_risk_select alice_a].
Proof.
  apply (at_risk_ignores_columns [alice_a]).
  constructor; [|constructor].
  repeat split.
Defined.

(** X6.  A sector shown with a negative net has a row in the at-risk table. *)
Theorem negative_sector_has_at_risk_row :
  forall (client_data : list HoldingRecord)
         (sectors : list SectorAggregate) (at_risk : list AtRiskRow) (g : SectorAggregate),
    sector_data client_data sectors ->
    df_protip_data client_data at_risk ->
    In g sectors ->
    netGainLoss g < 0 ->
    exists r, In r at_risk /\ ar_sector r = sa_sector g.
Proof.
  intros cd sectors at_risk g [Hperm _] Hq Hg Hneg.
  apply (Permutation_in _ (Permutation_sym Hperm)) in Hg.
  apply sector_groups_In in Hg. destruct Hg as [k [-> _]].
  simpl in Hneg. rewrite sum_sigma in Hneg.
  apply sigma_neg_exists in Hneg. destruct Hneg as [x [Hx Hlt]].
  apply in_map_iff in Hx. destruct Hx as [h [<- Hh]].
  unfold sector_rows in Hh. apply filter_In in Hh. destruct Hh as [Hh Hk].
  exists (at_risk_select h). split.
  - apply (at_risk_rows_In cd at_risk _ Hq).
    exists h. split; [exact Hh|]. split; [Lqa.lra|reflexivity].
  - simpl. apply String.eqb_eq. exact Hk.
Qed.

Lemma negative_sector_has_at_risk_row_witness :
  exists r, In r (computeAtRisk [alice_a; alice_b; alice_c]) /\ ar_sector r = "Tech".
Proof.
  apply (negative_sector_has_at_risk_row [alice_a; alice_b; alice_c]
           (sort_desc netGainLoss (sector_groups [alice_a; alice_b; alice_c]))
           (computeAtRisk [alice_a; alice_b; alice_c])
           (sector_aggregate [alice_a; alice_b; alice_c] "Tech")).
  - apply sort_desc_order_by.
  - apply sort_asc_order_by.
  - right. left. reflexivity.
  - reflexivity.
Defined.

(** ** Top holdings and the total investment *)

Lemma sigma_app (l m : list Q) : sigma (l ++ m)%list == sigma l + sigma m.
Proof.
  induction l as [|x t IH]; simpl.
  - ring.
  - rewrite IH. ring.
Qed.

Lemma product_groups_total (client_data : list HoldingRecord) :
  sigma (map ha_totalInvested (product_groups client_data)) ==
  sigma (map investmentAmount client_data).
Proof.
  unfold product_groups. rewrite map_map.
  rewrite (sigma_map_ext _ _ (group_sum productName investmentAmount client_data)).
  - apply sigma_group_sums.
  - intros k. simpl. apply sum_sigma.
Qed.

(** X7.  For a client subset whose amounts are integers with absolute values
    adding up to less than 2^53 in all: the amounts of the top-holdings chart
    add up to the Total Investment indicator when the client has at most five
    products; when no Investment Amount is negative they never add up to more
    than it. *)
Theorem top_holdings_total :
  forall (dt_inv : dtype) (client_data : list HoldingRecord) (out : list HoldingAggregate),
    top_holdings_data client_data out ->
    small_integer_amounts client_data ->
    ((List.length (distinct (map productName client_data)) <= 5)%nat ->
     sigma (map ha_totalInvested out) == total_investment dt_inv client_data) /\
    ((forall r, In r client_data -> 0 <= investmentAmount r) ->
     sigma (map ha_totalInvested out) <= total_investment dt_inv client_data).
Proof.
  intros dt_inv cd out [sorted [[Hperm _] ->]] Hsmall.
  destruct (kpi_totals_exact dt_inv dt_inv cd Hsmall) as (Ekpi & _ & _).
  assert (Htotal : sigma (map ha_totalInvested sorted) == total_investment dt_inv cd).
  { rewrite <- (sigma_map_Permutation _ ha_totalInvested _ _ Hperm).
    rewrite Ekpi. apply product_groups_total. }
  split.
  - intros Hfew. rewrite firstn_all2; [exact Htotal|].
    rewrite <- (Permutation_length Hperm), <- (length_map ha_productName).
    rewrite product_groups_names. exact Hfew.
  - intros Hpos. rewrite <- Htotal.
    rewrite <- (firstn_skipn 5 sorted) at 2. rewrite map_app, sigma_app.
    assert (Hrest : 0 <= sigma (map ha_totalInvested (skipn 5 sorted))).
    { apply sigma_nonneg. intros x Hx. apply in_map_iff in Hx.
      destruct Hx as [g [<- Hg]].
      assert (Hin : In g (product_groups cd)).
      { apply (Permutation_in _ (Permutation_sym Hperm)).
        rewrite <- (firstn_skipn 5 sorted). apply in_or_app. right. exact Hg. }
      apply product_groups_In in Hin. destruct Hin as [k [-> _]]. simpl.
      rewrite sum_sigma. apply sigma_nonneg. intros y Hy.
      apply in_map_iff in Hy. destruct Hy as [r [<- Hr]].
      apply Hpos. unfold product_rows in Hr. apply filter_In in Hr. exact (proj1 Hr). }
    Lqa.lra.
Qed.

Lemma top_holdings_total_witness :
  sigma (map ha_totalInvested
           (firstn 5 (sort_desc ha_totalInvested (product_groups [alice_a; alice_b; alice_c]))))
  == total_investment dtype_int64 [alice_a; alice_b; alice_c].
Proof.
  apply (proj1 (top_holdings_total dtype_int64 [alice_a; alice_b; alice_c] _
                  (ex_intro _ _ (conj (sort_desc_order_by _ _ _) eq_refl))
                  alice_small_integer_amounts)).
  simpl. lia.
Defined.

(** ** Required growth: what the number means *)

Lemma Rpower_compare_1 (a e : R) :
  (0 < a)%R -> (0 < e)%R ->
  ((a < 1 -> Rpower a e < 1) /\ (a = 1 -> Rpower a e = 1) /\ (1 < a -> 1 < Rpower a e))%R.
Proof.
  intros Ha He. unfold Rpower. split; [|split].
  - intros H. assert (Hln : (ln a < 0)%R) by (rewrite <- ln_1; apply ln_increasing; lra).
    assert (Hexp : (exp (e * ln a) < exp 0)%R) by (apply exp_increasing; nra).
    rewrite exp_0 in Hexp. exact Hexp.
  - intros ->. rewrite ln_1, Rmult_0_r. apply exp_0.
  - intros H. assert (Hln : (0 < ln a)%R) by (rewrite <- ln_1; apply ln_increasing; lra).
    assert (Hexp : (exp 0 < exp (e * ln a))%R) by (apply exp_increasing; nra).
    rewrite exp_0 in Hexp. exact Hexp.
Qed.

(** X8.  Growing the total investment at the computed rate, compounded
    yearly for the given number of years, gives the target: the number
    entered as target increase is the value to be reached. *)
Theorem required_growth_compounds :
  forall (target_increase time_period : Z) (total_investment : Q),
    (0 < target_increase)%Z -> (0 < time_period)%Z -> 0 < total_investment ->
    exists v,
      sidebar_growth target_increase total_investment time_period = Some (Finite v) /\
      (Q2R total_investment * (1 + v / 100) ^ Z.to_nat time_period =
       IZR target_increase)%R.
Proof.
  intros t y T Ht Hy HT.
  eexists. split; [apply sidebar_growth_positive; assumption|].
  assert (HT' : (0 < Q2R T)%R).
  { replace 0%R with (Q2R 0) by (unfold Q2R; simpl; field). apply Qlt_Rlt. exact HT. }
  assert (Ht' : (0 < IZR t)%R) by (apply IZR_lt; exact Ht).
  assert (Hy' : (0 < IZR y)%R) by (apply IZR_lt; exact Hy).
  set (a := (IZR t / Q2R T)%R).
  assert (Ha : (0 < a)%R) by (unfold a; apply Rdiv_lt_0_compat; assumption).
  replace (1 + (Rpower a (1 / IZR y) - 1) * 100 / 100)%R
    with (Rpower a (1 / IZR y)) by field.
  rewrite <- Rpower_pow by (unfold Rpower; apply exp_pos).
  rewrite Rpower_mult, INR_IZR_INZ, Z2Nat.id by lia.
  replace (1 / IZR y * IZR y)%R with 1%R by (field; lra).
  rewrite Rpower_1 by exact Ha.
  unfold a. field. lra.
Qed.

Lemma required_growth_compounds_witness :
  exists v,
    sidebar_growth 100000 500000 3 = Some (Finite v) /\
    (Q2R 500000 * (1 + v / 100) ^ Z.to_nat 3 = 100000)%R.
Proof.
  apply (required_growth_compounds 100000 3 500000); [lia|lia|reflexivity].
Defined.

(** X9.  Over a positive total investment the computed rate is above -100,
    and it is positive, zero or negative as the target is above, equal to or
    below the total investment. *)
Theorem required_growth_sign :
  forall (target_increase time_period : Z) (total_investment : Q),
    (0 < target_increase)%Z -> (0 < time_period)%Z -> 0 < total_investment ->
    exists v,
      sidebar_growth target_increase total_investment time_period = Some (Finite v) /\
      (-100 < v)%R /\
      ((0 < v)%R <-> total_investment < inject_Z target_increase) /\
      (v = 0%R <-> inject_Z target_increase == total_investment) /\
      ((v < 0)%R <-> inject_Z target_increase < total_investment).
Proof.
  intros t y T Ht Hy HT.
  eexists. split; [apply sidebar_growth_positive; assumption|].
  assert (HT' : (0 < Q2R T)%R).
  { replace 0%R with (Q2R 0) by (unfold Q2R; simpl; field). apply Qlt_Rlt. exact HT. }
  assert (Ht' : (0 < IZR t)%R) by (apply IZR_lt; exact Ht).
  assert (Hy' : (0 < 1 / IZR y)%R).
  { apply Rdiv_lt_0_compat; [lra|apply IZR_lt; exact Hy]. }
  set (a := (IZR t / Q2R T)%R).
  assert (Ha : (0 < a)%R) by (unfold a; apply Rdiv_lt_0_compat; assumption).
  destruct (Rpower_compare_1 a (1 / IZR y) Ha Hy') as (Hlt & Heq & Hgt).
  assert (Hpos : (0 < Rpower a (1 / IZR y))%R) by (unfold Rpower; apply exp_pos).
  assert (Ha_lt : (a < 1 <-> IZR t < Q2R T)%R).
  { unfold a. split; intros H.
    - apply (Rmult_lt_compat_r (Q2R T)) in H; [|exact HT'].
      unfold Rdiv in H. rewrite Rmult_assoc, Rinv_l in H; lra.
    - apply (Rmult_lt_reg_r (Q2R T)); [exact HT'|].
      unfold Rdiv. rewrite Rmult_assoc, Rinv_l; lra. }
  assert (Ha_gt : (1 < a <-> Q2R T < IZR t)%R).
  { unfold a. split; intros H.
    - apply (Rmult_lt_compat_r (Q2R T)) in H; [|exact HT'].
      unfold Rdiv in H. rewrite Rmult_assoc, Rinv_l in H; lra.
    - apply (Rmult_lt_reg_r (Q2R T)); [exact HT'|].
      unfold Rdiv. rewrite Rmult_assoc, Rinv_l; lra. }
  assert (Hq_lt : inject_Z t < T <-> (IZR t < Q2R T)%R).
  { rewrite <- Q2R_inject_Z. split; [apply Qlt_Rlt|apply Rlt_Qlt]. }
  assert (Hq_gt : T < inject_Z t <-> (Q2R T < IZR t)%R).
  { rewrite <- Q2R_inject_Z. split; [apply Qlt_Rlt|apply Rlt_Qlt]. }
  assert (Hq_eq : inject_Z t == T <-> (IZR t = Q2R T)%R).
  { rewrite <- Q2R_inject_Z. split; [apply Qeq_eqR|apply eqR_Qeq]. }
  split; [lra|].
  destruct (Rtotal_order a 1) as [H|[H|H]].
  - pose proof (Hlt H) as Hp. pose proof (proj1 Ha_lt H) as Hc.
    split; [|split]; split; intros G; try lra.
    + apply Hq_gt in G. lra.
    + apply Hq_eq in G. lra.
    + apply Hq_lt. exact Hc.
  - pose proof (Heq H) as Hp.
    assert (Hc : (IZR t = Q2R T)%R).
    { unfold a in H. apply (Rmult_eq_compat_r (Q2R T)) in H.
      unfold Rdiv in H. rewrite Rmult_assoc, Rinv_l in H; lra. }
    split; [|split]; split; intros G; try lra.
    + apply Hq_gt in G. lra.
    + apply Hq_eq. exact Hc.
    + apply Hq_lt in G. lra.
  - pose proof (Hgt H) as Hp. pose proof (proj1 Ha_gt H) as Hc.
    split; [|split]; split; intros G; try lra.
    + apply Hq_gt. exact Hc.
    + apply Hq_eq in G. lra.
    + apply Hq_lt in G. lra.
Qed.

Lemma required_growth_sign_witness :
  exists v,
    sidebar_growth 100000 500000 3 = Some (Finite v) /\
    (-100 < v)%R /\
    ((0 < v)%R <-> 500000 < inject_Z 100000) /\
    (v = 0%R <-> inject_Z 100000 == 500000) /\
    ((v < 0)%R <-> inject_Z 100000 < 500000).
Proof.
  apply (required_growth_sign 100000 3 500000); [lia|lia|reflexivity].
Defined.

(** ** Header check: what it depends on *)

Lemma Subseq_filter_impl (A : Type) (f g : A -> bool) (l : list A) :
  (forall x, In x l -> f x = true -> g x = true) ->
  Subseq (filter f l) (filter g l).
Proof.
  induction l as [|x t IH]; simpl; intros H.
  - constructor.
  - assert (IH' : Subseq (filter f t) (filter g t)).
    { apply IH. intros y Hy. apply H. right. exact Hy. }
    destruct (f x) eqn:Ef.
    + rewrite (H x (or_introl eq_refl) Ef). constructor. exact IH'.
    + destruct (g x); [constructor|]; exact IH'.
Qed.

(** X10.  The header check looks only at which required names occur in the
    header: headers with the same required names present, in any order, with
    repeated or further columns, give the same report; and a header that
    keeps all columns of another and adds some reports no name the other
    does not report. *)
Theorem missing_columns_membership :
  forall data data' : DataFrame,
    ((forall col, In col required_columns ->
                  (In col (columns data) <-> In col (columns data'))) ->
     missing_columns data = missing_columns data') /\
    ((forall col, In col (columns data) -> In col (columns data')) ->
     Subseq (missing_columns data') (missing_columns data)).
Proof.
  intros data data'. unfold missing_columns. split.
  - intros H. apply filter_ext_in. intros col Hcol. f_equal.
    destruct (col_in col (columns data)) eqn:E1, (col_in col (columns data')) eqn:E2;
      try reflexivity.
    + apply col_in_iff in E1. apply (H col Hcol) in E1. apply col_in_iff in E1. congruence.
    + apply col_in_iff in E2. apply (H col Hcol) in E2. apply col_in_iff in E2. congruence.
  - intros H. apply Subseq_filter_impl. intros col _ E.
    apply negb_true_iff in E. apply negb_true_iff.
    destruct (col_in col (columns data)) eqn:E1; [|reflexivity].
    apply col_in_iff in E1. apply H in E1. apply col_in_iff in E1. congruence.
Qed.

Lemma missing_columns_membership_witness :
  missing_columns sample =
  missing_columns {| columns := "Notes" :: rev required_columns; rows := sample_rows |}.
Proof.
  apply (proj1 (missing_columns_membership sample
                  {| columns := "Notes" :: rev required_columns; rows := sample_rows |})).
  intros col Hcol. simpl. split; intros H.
  - right. exact (proj1 (in_rev required_columns col) H).
  - exact Hcol.
Defined.

(** ** KPI values and the rows *)




Lemma sigma_bounds (l : list Q) (lo hi : Q) :
  (forall x, In x l -> lo <= x /\ x <= hi) ->
  lo * inject_Z (Z.of_nat (List.length l)) <= sigma l /\
  sigma l <= hi * inject_Z (Z.of_nat (List.length l)).
Proof.
  induction l as [|x t IH]; intros H.
  - change (lo * 0 <= 0 /\ 0 <= hi * 0). rewrite !Qmult_0_r. split; apply Qle_refl.
  - destruct (H x (or_introl eq_refl)) as [Hlo Hhi].
    destruct IH as [IH1 IH2]; [intros y Hy; apply H; right; exact Hy|].
    assert (Hn : inject_Z (Z.of_nat (List.length (x :: t))) ==
                 1 + inject_Z (Z.of_nat (List.length t))).
    { change (List.length (x :: t)) with (S (List.length t)).
      rewrite Nat2Z.inj_succ. unfold Z.succ.
      rewrite inject_Z_plus. change (inject_Z 1) with 1. ring. }
    rewrite Hn. simpl sigma. split.
    + setoid_replace (lo * (1 + inject_Z (Z.of_nat (List.length t))))
        with (lo + lo * inject_Z (Z.of_nat (List.length t))) by ring.
      Lqa.lra.
    + setoid_replace (hi * (1 + inject_Z (Z.of_nat (List.length t))))
        with (hi + hi * inject_Z (Z.of_nat (List.length t))) by ring.
      Lqa.lra.
Qed.

Lemma mean_bounds (l : list Q) (lo hi : Q) :
  l <> [] ->
  (forall x, In x l -> lo <= x /\ x <= hi) ->
  exists m, mean l = Finite m /\ lo <= m /\ m <= hi.
Proof.
  intros Hne H. destruct (sigma_bounds l lo hi H) as [H1 H2].
  destruct l as [|x t]; [congruence|].
  eexists. split; [reflexivity|].
  assert (Hn : 0 < inject_Z (Z.of_nat (List.length (x :: t)))).
  { unfold Qlt. simpl. lia. }
  rewrite <- sum_sigma in H1, H2. split.
  - apply Qle_shift_div_l; assumption.
  - apply Qle_shift_div_r; assumption.
Qed.

(** X13.  For a client with rows, each KPI mean lies between the smallest
    and the largest value of its growth column: within any bounds that hold
    for every row. *)
Theorem kpi_mean_within_bounds :
  forall (client_data : list HoldingRecord) (lo hi : Q),
    client_data <> [] ->
    ((forall r, In r client_data ->
                lo <= annualizedExpectedGrowth r /\ annualizedExpectedGrowth r <= hi) ->
     exists m, annual_growth_required client_data = Finite m /\ lo <= m /\ m <= hi) /\
    ((forall r, In r client_data ->
                lo <= actualAnnualGrowth r /\ actualAnnualGrowth r <= hi) ->
     exists m, actual_annual_growth client_data = Finite m /\ lo <= m /\ m <= hi).
Proof.
  intros cd lo hi Hne.
  assert (Hmap : forall f : HoldingRecord -> Q, map f cd <> [])
    by (intros f; destruct cd; [congruence|discriminate]).
  split; intros H; apply mean_bounds; try apply Hmap;
    intros x Hx; apply in_map_iff in Hx; destruct Hx as [r [<- Hr]]; apply H; exact Hr.
Qed.

Lemma kpi_mean_within_bounds_witness :
  exists m, annual_growth_required [alice_a; alice_b; alice_c] = Finite m /\
            6 <= m /\ m <= 8.
Proof.
  apply (proj1 (kpi_mean_within_bounds [alice_a; alice_b; alice_c] 6 8 ltac:(discriminate))).
  intros r [<-|[<-|[<-|[]]]]; simpl; split; unfold Qle; simpl; lia.
Defined.

(** ** The charts and the selected client *)

Lemma client_data_In (data : DataFrame) (selected_client : string) (r : HoldingRecord) :
  In r (client_data data selected_client) <->
  In r (rows data) /\ clientName r = selected_client.
Proof. unfold client_data. rewrite filter_In, String.eqb_eq. reflexivity. Qed.

Lemma firstn_In (A : Type) (n : nat) (l : list A) (x : A) :
  In x (firstn n l) -> In x l.
Proof.
  intros H. rewrite <- (firstn_skipn n l). apply in_or_app. left. exact H.
Qed.

(** X14.  Both charts of a rendered page show the selected client only:
    every sector bar and every slice of the top-holdings pie comes from a row
    of the table that carries the selected name, and the pie has at most five
    slices. *)
Theorem charts_show_selected_client :
  forall (data : DataFrame) (selected_client : string) (target_increase time_period : Z)
         (d : Dashboard),
    script data selected_client target_increase time_period (Rendered d) ->
    (forall g, In g (d_sector_data d) ->
       exists r, In r (rows data) /\ clientName r = selected_client /\
                 sector r = sa_sector g) /\
    (forall g, In g (d_top_holdings d) ->
       exists r, In r (rows data) /\ clientName r = selected_client /\
                 productName r = ha_productName g) /\
    (List.length (d_top_holdings d) <= 5)%nat.
Proof.
  intros data sel t y d Hrun.
  inversion Hrun as [| |at_risk sectors top _ _ cd _ Hs Hp Hd]. subst d. simpl.
  split; [|split].
  - intros g Hg. destruct Hs as [Hperm _].
    apply (Permutation_in _ (Permutation_sym Hperm)) in Hg.
    apply sector_groups_In in Hg. destruct Hg as [k [-> Hk]].
    apply in_map_iff in Hk. destruct Hk as [r [E Hr]].
    apply client_data_In in Hr. destruct Hr as [Hr Hn].
    exists r. split; [exact Hr|]. split; [exact Hn|exact E].
  - intros g Hg. destruct Hp as [sorted [[Hperm _] ->]].
    apply firstn_In in Hg.
    apply (Permutation_in _ (Permutation_sym Hperm)) in Hg.
    apply product_groups_In in Hg. destruct Hg as [k [-> Hk]].
    apply in_map_iff in Hk. destruct Hk as [r [E Hr]].
    apply client_data_In in Hr. destruct Hr as [Hr Hn].
    exists r. split; [exact Hr|]. split; [exact Hn|exact E].
  - destruct Hp as [sorted [_ ->]]. apply firstn_le_length.
Qed.

Lemma charts_show_selected_client_witness :
  (List.length (d_top_holdings (reference_dashboard sample "Alice" 100000 3)) <= 5)%nat.
Proof.
  apply (proj2 (proj2 (charts_show_selected_client sample "Alice" 100000 3
                         (reference_dashboard sample "Alice" 100000 3)
                         (script_reference_run sample "Alice" 100000 3 eq_refl
                            ltac:(discriminate))))).
Defined.

(** ** The exception of line 87 *)

(** X15.  On a sheet that passes the header check, line 87 raises
    [ZeroDivisionError] exactly when the sheet has no row and both sidebar
    inputs are positive; the run then has no other outcome, and it stops
    after the KPI section, before any query. *)
Theorem zero_division_outcome :
  forall (data : DataFrame) (selected_client : string) (target_increase time_period : Z),
    ((exists k, script data selected_client target_increase time_period
                  (ZeroDivisionError k)) <->
     missing_columns data = [] /\ rows data = [] /\
     (0 < target_increase)%Z /\ (0 < time_period)%Z) /\
    (missing_columns data = [] -> rows data = [] ->
     (0 < target_increase)%Z -> (0 < time_period)%Z ->
     forall page,
       script data selected_client target_increase time_period page ->
       page = ZeroDivisionError (kpi_panel data selected_client)).
Proof.
  intros data sel t y. split.
  - split.
    + intros [k H]. inversion H as [|Hm Hg Hp|]. subst.
      apply growth_step_raises in Hg. split; [exact Hm|exact Hg].
    + intros (Hm & Hr & Ht & Hy). eexists. apply script_zero_division; [exact Hm|].
      apply growth_step_raises. repeat split; assumption.
  - intros Hm Hr Ht Hy page H.
    assert (Hg : growth_step data sel t y = RaisesZeroDivisionError)
      by (apply growth_step_raises; repeat split; assumption).
    inversion H as [Hm'|Hm' Hg' Hp|at_risk sectors top Hm' Hg' cd Hq Hs Hp Hpage].
    + contradiction.
    + reflexivity.
    + contradiction.
Qed.

Lemma zero_division_outcome_witness :
  exists k, script header_only "" 100000 3 (ZeroDivisionError k).
Proof.
  apply (proj2 (proj1 (zero_division_outcome header_only "" 100000 3))).
  repeat split; lia.
Defined.
